(** * HOSPIX: patient records, audit trail and the delete permission gate

    A shallow embedding of the two variants of the service:

    - [Index]  : src/src/backend/index.ts (identifiers are strings), and
    - [Backup] : src/backup.ts (doctor identifiers are [Principal]s), the only
      variant with the [deletePatient] route.

    Both files open [doctors], [patients] and [auditLogs] as
    [StableBTreeMap(100)]: the three names are three handles on the one
    store of memory id 100.  What a handle's [get] answers is whatever value
    is stored under the key, a record or an audit line, and a handler reads
    the properties it expects off it ([undefined] where the value has none).

    Every route handler is a function from the store to a response and the
    new store.  The clock ([new Date().toISOString()]) and the identifier
    generator ([uuidv4()]) are inputs of the handlers that use them.  [get]
    hands out a deserialised copy, so a handler changes a stored value only
    through [insert] / [remove].  The files are modules, hence strict code:
    an assignment to a property of a string throws.

    A property of a request body carries its declared TypeScript type; a
    property the request leaves out is [undefined], written [None].  A
    string is the sequence of its UTF-8 bytes. *)

From Stdlib Require Import Ascii.
From stdpp Require Import gmap strings list fin_maps relations sorting.

Local Open Scope string_scope.
Local Open Scope Z_scope.

(** ** JavaScript values as the handlers use them *)

(** [ToBoolean]: what [!x] and [if (x)] test. *)
Class Truthy (A : Type) := truthy : A → bool.

#[global] Instance string_truthy : Truthy string :=
  λ s, match s with EmptyString => false | String _ _ => true end.
(* a number is falsy when it is zero *)
#[global] Instance number_truthy : Truthy Z :=
  λ n, negb (n =? 0).
#[global] Instance array_truthy {A} : Truthy (list A) :=
  λ _, true.
#[global] Instance undefined_truthy `{Truthy A} : Truthy (option A) :=
  λ x, match x with Some a => truthy a | None => false end.

(** [`${x}`] for a string property that may be absent. *)
Definition display (x : option string) : string :=
  match x with Some s => s | None => "undefined" end.

(** [`${user} - ${action}`], the line an action leaves in the audit store. *)
Definition auditLine (user action : string) : string :=
  user +:+ " - " +:+ action.


(** [Array.prototype.push] of one element. *)
Definition push {A} (l : list A) (x : A) : list A := l ++ [x].

(** [Array.prototype.splice(start, 1)] for [0 <= start < length]. *)
Definition splice1 {A} (start : Z) (l : list A) : list A :=
  delete (Z.to_nat start) l.

Definition code (a : ascii) : Z := Z.of_N (N_of_ascii a).

(** The white space [Number.parseInt] skips: TAB, LF, VT, FF, CR and SP in
    one byte, U+00A0 in two, and in three U+1680, U+2000 to U+200A, U+2028,
    U+2029, U+202F, U+205F, U+3000 and U+FEFF. *)
Definition is_space (a : ascii) : bool :=
  (9 <=? code a) && (code a <=? 13) || (code a =? 32).

Definition is_space2 (a b : ascii) : bool :=
  (code a =? 194) && (code b =? 160).

Definition is_space3 (a b c : ascii) : bool :=
  (code a =? 225) && (code b =? 154) && (code c =? 128)
  || (code a =? 226) && (code b =? 128)
     && ((128 <=? code c) && (code c <=? 138)
         || (code c =? 168) || (code c =? 169) || (code c =? 175))
  || (code a =? 226) && (code b =? 129) && (code c =? 159)
  || (code a =? 227) && (code b =? 128) && (code c =? 128)
  || (code a =? 239) && (code b =? 187) && (code c =? 191).

Fixpoint trimStart (s : string) : string :=
  match s with
  | String a s1 =>
      if is_space a then trimStart s1
      else
        match s1 with
        | String b s2 =>
            if is_space2 a b then trimStart s2
            else
              match s2 with
              | String c s3 => if is_space3 a b c then trimStart s3 else s
              | EmptyString => s
              end
        | EmptyString => s
        end
  | EmptyString => s
  end.

Definition digitValue (radix : Z) (a : ascii) : option Z :=
  let n := code a in
  let v := if (48 <=? n) && (n <=? 57) then n - 48
           else if (97 <=? n) && (n <=? 122) then n - 87
           else if (65 <=? n) && (n <=? 90) then n - 55
           else radix in
  if v <? radix then Some v else None.

Fixpoint digitRun (radix : Z) (acc : option Z) (s : string) : option Z :=
  match s with
  | String a s' =>
      match digitValue radix a with
      | Some d => digitRun radix (Some (radix * default 0 acc + d)) s'
      | None => acc
      end
  | EmptyString => acc
  end.

(** [Number.parseInt(s)] with no radix: leading white space, a sign, an
    optional [0x] prefix, then the longest run of digits; [None] is [NaN].
    The result is compared with zero and with an array length only, so it
    is kept exact. *)
Definition parseInt (input : string) : option Z :=
  let s := trimStart input in
  let '(sign, s) :=
    match s with
    | String "-"%char s' => (-1, s')
    | String "+"%char s' => (1, s')
    | _ => (1, s)
    end in
  let '(radix, s) :=
    match s with
    | String "0"%char (String "x"%char s') => (16, s')
    | String "0"%char (String "X"%char s') => (16, s')
    | _ => (10, s)
    end in
  (λ n, sign * n) <$> digitRun radix None s.

(** ** What the generator and the clock hand out *)

Definition is_char (c a : ascii) : bool := code a =? code c.

Definition is_digit (a : ascii) : bool := (48 <=? code a) && (code a <=? 57).

Definition is_hex (a : ascii) : bool :=
  is_digit a || (97 <=? code a) && (code a <=? 102).

(** A string of the length of [pattern] whose characters pass its tests. *)
Fixpoint matches (pattern : list (ascii → bool)) (s : string) : bool :=
  match pattern, s with
  | [], EmptyString => true
  | test :: pattern, String a s => test a && matches pattern s
  | _, _ => false
  end.

(** The text of a version 4 UUID, [xxxxxxxx-xxxx-4xxx-yxxx-xxxxxxxxxxxx]. *)
Definition uuid_pattern : list (ascii → bool) :=
  (replicate 8 is_hex ++ [is_char "-"] ++ replicate 4 is_hex ++ [is_char "-"]
   ++ [is_char "4"] ++ replicate 3 is_hex ++ [is_char "-"]
   ++ [λ a, is_char "8" a || is_char "9" a || is_char "a" a || is_char "b" a]
   ++ replicate 3 is_hex ++ [is_char "-"] ++ replicate 12 is_hex)%list.

Definition is_uuid (s : string) : bool := matches uuid_pattern s.

(** The text of [Date.prototype.toISOString()]: [YYYY-MM-DDTHH:mm:ss.sssZ],
    with a sign and six digits for a year outside 0 to 9999. *)
Definition iso_tail : list (ascii → bool) :=
  [is_char "-"; is_digit; is_digit; is_char "-"; is_digit; is_digit;
   is_char "T"; is_digit; is_digit; is_char ":"; is_digit; is_digit;
   is_char ":"; is_digit; is_digit; is_char "."; is_digit; is_digit; is_digit;
   is_char "Z"].

Definition is_timestamp (s : string) : bool :=
  matches (replicate 4 is_digit ++ iso_tail) s
  || matches ([λ a, is_char "+" a || is_char "-" a] ++ replicate 6 is_digit
              ++ iso_tail) s.

(** A value of [uuidv4()]. *)
Record Uuid := mkUuid {
  uuid_text : string;
  uuid_wf : is_uuid uuid_text = true
}.

(** A value of [new Date().toISOString()]. *)
Record Timestamp := mkTimestamp {
  timestamp_text : string;
  timestamp_wf : is_timestamp timestamp_text = true
}.

(** ** Keys of a [StableBTreeMap] *)

Definition hexDigit (n : Z) : ascii :=
  ascii_of_N (Z.to_N (if n <? 10 then 48 + n else 87 + n)).

(** [JSON.stringify] of one character of a string. *)
Definition jsonEscape (a : ascii) : string :=
  let n := code a in
  if n =? 34 then String "\" (String a "")
  else if n =? 92 then "\\"
  else if n =? 8 then "\b"
  else if n =? 9 then "\t"
  else if n =? 10 then "\n"
  else if n =? 12 then "\f"
  else if n =? 13 then "\r"
  else if n <? 32 then "\u00" +:+ String (hexDigit (n / 16)) (String (hexDigit (n mod 16)) "")
  else String a "".

Fixpoint jsonEscapes (s : string) : string :=
  match s with
  | String a s' => jsonEscape a +:+ jsonEscapes s'
  | EmptyString => EmptyString
  end.

(** [JSON.stringify(s)], the bytes a string key is stored as. *)
Definition jsonQuote (s : string) : string :=
  String "034" (jsonEscapes s +:+ String "034" "").

(** The order of the store: that of the bytes of the serialised keys. *)
Definition keyLe {K} (encode : K → string) (k1 k2 : K) : Prop :=
  String.leb (encode k1) (encode k2) = true.

#[global] Instance keyLe_dec {K} (encode : K → string) (k1 k2 : K) :
  Decision (keyLe encode k1 k2).
Proof. unfold keyLe. apply _. Defined.

(** [StableBTreeMap.keys()]: every key once, in the order of the store. *)
Definition keysBy `{Countable K} {V} (encode : K → string) (store : gmap K V)
    : list K :=
  merge_sort (keyLe encode) (map_to_list store).*1.

(** ** Responses *)

(** The error answers of the handlers, by HTTP status and message. *)
Inductive Error :=
  | ValidationError   (* 400 "Invalid input" / "Invalid patient data" *)
  | NotFound          (* 404 "Doctor not found" / "Patient not found" /
                             "Patient or Doctor not found" *)
  | IndexOutOfRange   (* 404 "Report not found" *)
  | PermissionDenied  (* 403 *)
  | InternalError.    (* 500, the [catch] branch *)

Inductive Response (A : Type) :=
  | Ok (a : A)
  | Fail (e : Error).
Arguments Ok {A} a.
Arguments Fail {A} e.

(** [let x = store.get(key); if (x) ...]: the value the test lets through. *)
Definition found `{Truthy V} (x : option V) : option V :=
  match x with
  | Some v => if truthy v then Some v else None
  | None => None
  end.

(** [let x = store.get(key); if (x) { res.json(x) } else { 404 }], the body
    of the read routes. *)
Definition fetch `{Countable K} `{Truthy V} (store : gmap K V) (key : K)
    : Response V :=
  match found (store !! key) with
  | Some x => Ok x
  | None => Fail NotFound
  end.

(** ** The patient input and its validation (the same text in both files) *)

Module PatientDto.
Record t := mk {
  patientId : option string;
  name : option string;
  age : option Z;
  medicalHistory : option (list string);
  currentTreatment : option string;
  assignedDoctor : option string
}.
End PatientDto.

Definition validatePatientInput (input : PatientDto.t) : bool :=
  if negb (truthy (PatientDto.patientId input))
     || negb (truthy (PatientDto.name input))
     || negb (truthy (PatientDto.age input))
     || negb (truthy (PatientDto.assignedDoctor input))
  then false
  else true.

(** ** Sample identifiers and instants *)

Definition doctorA : Uuid :=
  mkUuid "11111111-1111-4111-8111-111111111111" eq_refl.
Definition doctorB : Uuid :=
  mkUuid "22222222-2222-4222-9222-222222222222" eq_refl.
Definition patientA : Uuid :=
  mkUuid "aaaaaaaa-aaaa-4aaa-aaaa-aaaaaaaaaaaa" eq_refl.
Definition patientB : Uuid :=
  mkUuid "bbbbbbbb-bbbb-4bbb-bbbb-bbbbbbbbbbbb" eq_refl.

Definition instant0 : Timestamp := mkTimestamp "2024-01-01T00:00:00.000Z" eq_refl.
Definition instant1 : Timestamp := mkTimestamp "2024-01-01T00:00:01.000Z" eq_refl.
Definition instant2 : Timestamp := mkTimestamp "2024-01-01T00:00:02.000Z" eq_refl.
Definition instant3 : Timestamp := mkTimestamp "2024-01-01T00:00:03.000Z" eq_refl.
Definition instant4 : Timestamp := mkTimestamp "2024-01-01T00:00:04.000Z" eq_refl.
Definition instant5 : Timestamp := mkTimestamp "2024-01-01T00:00:05.000Z" eq_refl.
Definition instant6 : Timestamp := mkTimestamp "2024-01-01T00:00:06.000Z" eq_refl.
Definition instant7 : Timestamp := mkTimestamp "2024-01-01T00:00:07.000Z" eq_refl.

(** ** src/src/backend/index.ts *)

Module Index.

(** A stored record: the properties the handlers write, each present or
    not.  A doctor is written with the first four, a patient with
    [patientId], [name], [age] and the four after them. *)
Module Obj.
Record t := mk {
  doctorId : option string;
  name : option string;
  role : option string;          (* [Role], a string enum, unchecked *)
  department : option string;
  patientId : option string;
  age : option Z;
  medicalHistory : option (list string);
  currentTreatment : option string;
  assignedDoctor : option string;
  reports : option (list (option string))
}.
End Obj.

(** What the store holds under a key: a record or an audit line. *)
Inductive Value :=
  | VObject (o : Obj.t)
  | VString (line : string).

#[global] Instance value_truthy : Truthy Value :=
  λ v, match v with VObject _ => true | VString line => truthy line end.

(** [x.field] read off a value a handle answered. *)
Definition prop {A} (field : Obj.t → option A) (x : Value) : option A :=
  match x with
  | VObject o => field o
  | VString _ => None
  end.

(** An element of [reportData] in [/generateReports]. *)
Module Summary.
Record t := mk {
  patientId : option string;
  name : option string;
  currentTreatment : option string;
  assignedDoctor : option string;
  reports : option (list (option string))
}.
End Summary.

(** The store of memory id 100 and its three handles. *)
Record State := mkState {
  memory100 : gmap string Value
}.

Definition doctors (s : State) : gmap string Value := memory100 s.
Definition patients (s : State) : gmap string Value := memory100 s.
Definition auditLogs (s : State) : gmap string Value := memory100 s.

Definition init : State := mkState ∅.

Definition doctors_insert (key : string) (d : Value) (s : State) : State :=
  mkState (<[key := d]> (memory100 s)).

Definition patients_insert (key : string) (p : Value) (s : State) : State :=
  mkState (<[key := p]> (memory100 s)).

Definition auditLogs_insert (key : string) (line : Value) (s : State) : State :=
  mkState (<[key := line]> (memory100 s)).

(** [patients.keys()] *)
Definition keys (store : gmap string Value) : list string :=
  keysBy jsonQuote store.

(** [logAction(userId, action)]; [now] is [new Date().toISOString()]. *)
Definition logAction (now : Timestamp) (userId : option string) (action : string)
    (s : State) : State :=
  let timestamp := timestamp_text now in
  auditLogs_insert timestamp (VString (auditLine (display userId) action)) s.

(** [POST /doctors]; [uuid] is the value of [uuidv4()]. *)
Definition createDoctor (uuid : Uuid) (now : Timestamp)
    (name role department : option string)
    (s : State) : Response Obj.t * State :=
  if negb (truthy name) || negb (truthy role) || negb (truthy department)
  then (Fail ValidationError, s)
  else
    let newDoctor :=
      Obj.mk (Some (uuid_text uuid)) name role department
             None None None None None None in
    let s := doctors_insert (uuid_text uuid) (VObject newDoctor) s in
    let s := logAction now (Obj.doctorId newDoctor) "Added new doctor" s in
    (Ok newDoctor, s).

(** [GET /doctors/:doctorId] *)
Definition getDoctor (doctorId : string) (s : State) : Response Value * State :=
  (fetch (doctors s) doctorId, s).

(** [POST /patients] *)
Definition createPatient (uuid : Uuid) (now : Timestamp) (name : option string)
    (age : option Z) (medicalHistory : option (list string))
    (currentTreatment assignedDoctor : option string)
    (s : State) : Response Obj.t * State :=
  let id := uuid_text uuid in
  let patientInput :=
    PatientDto.mk (Some id) name age medicalHistory currentTreatment assignedDoctor in
  if negb (validatePatientInput patientInput)
  then (Fail ValidationError, s)
  else
    let newPatient :=
      Obj.mk None name None None (Some id) age
             (Some (default [] medicalHistory))   (* medicalHistory ?? [] *)
             currentTreatment assignedDoctor (Some []) in
    let s := patients_insert id (VObject newPatient) s in
    let s := logAction now assignedDoctor ("Added patient record: " +:+ id) s in
    (Ok newPatient, s).

(** [GET /patients/:patientId] *)
Definition getPatient (patientId : string) (s : State) : Response Value * State :=
  (fetch (patients s) patientId, s).

(** [PUT /patients/:patientId]; the five assignments throw on a string. *)
Definition updatePatient (now : Timestamp) (patientId : string)
    (name : option string) (age : option Z)
    (medicalHistory : option (list string))
    (currentTreatment assignedDoctor : option string)
    (s : State) : Response Obj.t * State :=
  let patientInput :=
    PatientDto.mk (Some patientId) name age medicalHistory currentTreatment
                  assignedDoctor in
  if negb (validatePatientInput patientInput)
  then (Fail ValidationError, s)
  else
    match found (patients s !! patientId) with
    | Some (VObject patient) =>
        let patient :=
          Obj.mk (Obj.doctorId patient) name (Obj.role patient)
                 (Obj.department patient) (Obj.patientId patient) age
                 medicalHistory currentTreatment assignedDoctor
                 (Obj.reports patient) in
        let s := patients_insert patientId (VObject patient) s in
        let s := logAction now assignedDoctor
                   ("Updated patient record: " +:+ patientId) s in
        (Ok patient, s)
    | Some (VString _) => (Fail InternalError, s)
    | None => (Fail NotFound, s)
    end.

(** [patient.reports = reports], every other property kept. *)
Definition with_reports (patient : Obj.t) (reports : list (option string))
    : Obj.t :=
  Obj.mk (Obj.doctorId patient) (Obj.name patient) (Obj.role patient)
         (Obj.department patient) (Obj.patientId patient) (Obj.age patient)
         (Obj.medicalHistory patient) (Obj.currentTreatment patient)
         (Obj.assignedDoctor patient) (Some reports).

(** [patient.assignedDoctor = doctorId], every other property kept. *)
Definition with_assignedDoctor (patient : Obj.t) (doctorId : option string)
    : Obj.t :=
  Obj.mk (Obj.doctorId patient) (Obj.name patient) (Obj.role patient)
         (Obj.department patient) (Obj.patientId patient) (Obj.age patient)
         (Obj.medicalHistory patient) (Obj.currentTreatment patient)
         doctorId (Obj.reports patient).

(** [PUT /patients/:patientId/reports]; [patient.reports.push] throws where
    the value has no [reports]. *)
Definition addReport (now : Timestamp) (patientId : string)
    (report : option string)
    (s : State) : Response (list (option string)) * State :=
  match found (patients s !! patientId) with
  | Some (VObject patient) =>
      match Obj.reports patient with
      | Some reports =>
          let patient := with_reports patient (push reports report) in
          let s := patients_insert patientId (VObject patient) s in
          let s := logAction now (Obj.assignedDoctor patient)
                     ("Added report for patient: " +:+ patientId) s in
          (Ok (push reports report), s)
      | None => (Fail InternalError, s)
      end
  | Some (VString _) => (Fail InternalError, s)
  | None => (Fail NotFound, s)
  end.

(** [GET /patients/:patientId/reports] *)
Definition listReports (patientId : string) (s : State)
    : Response (option (list (option string))) * State :=
  match found (patients s !! patientId) with
  | Some patient => (Ok (prop Obj.reports patient), s)
  | None => (Fail NotFound, s)
  end.

(** [reportIndex >= 0], false of [NaN]. *)
Definition nonNegative (reportIndex : option Z) : bool :=
  match reportIndex with
  | Some i => 0 <=? i
  | None => false
  end.

(** [reportIndex >= 0 && reportIndex < patient.reports.length]; a comparison
    with [NaN] is false. *)
Definition inRange (reportIndex : option Z) (length : nat) : bool :=
  match reportIndex with
  | Some i => (0 <=? i) && (i <? Z.of_nat length)
  | None => false
  end.

(** [DELETE /patients/:patientId/reports/:reportId]; [patient.reports.length]
    is read, and throws where the value has no [reports], only once
    [reportIndex >= 0] has held. *)
Definition deleteReport (now : Timestamp) (patientId reportId : string)
    (s : State) : Response unit * State :=
  match found (patients s !! patientId) with
  | Some patient =>
      let reportIndex := parseInt reportId in
      if nonNegative reportIndex then
        match patient with
        | VObject patient =>
            match Obj.reports patient with
            | Some reports =>
                if inRange reportIndex (length reports) then
                  let patient :=
                    with_reports patient
                      (splice1 (default 0 reportIndex) reports) in
                  let s := patients_insert patientId (VObject patient) s in
                  let s := logAction now (Obj.assignedDoctor patient)
                             ("Deleted report for patient: " +:+ patientId) s in
                  (Ok (), s)
                else (Fail IndexOutOfRange, s)
            | None => (Fail InternalError, s)
            end
        | VString _ => (Fail InternalError, s)
        end
      else (Fail IndexOutOfRange, s)
  | None => (Fail NotFound, s)
  end.

(** [PUT /assignDoctor]; the assignment throws on a string. *)
Definition assignDoctor (now : Timestamp) (patientId doctorId : string)
    (s : State) : Response unit * State :=
  match found (patients s !! patientId), found (doctors s !! doctorId) with
  | Some patient, Some doctor =>
      match patient with
      | VObject patient =>
          let patient := with_assignedDoctor patient (prop Obj.doctorId doctor) in
          let s := patients_insert patientId (VObject patient) s in
          let s := logAction now (prop Obj.doctorId doctor)
                     ("Assigned to patient: " +:+ patientId) s in
          (Ok (), s)
      | VString _ => (Fail InternalError, s)
      end
  | _, _ => (Fail NotFound, s)
  end.

Definition summary (patient : Value) : Summary.t :=
  Summary.mk (prop Obj.patientId patient) (prop Obj.name patient)
             (prop Obj.currentTreatment patient)
             (prop Obj.assignedDoctor patient) (prop Obj.reports patient).

(** The body of [patients.keys().forEach(...)]. *)
Definition collect (store : gmap string Value)
    (reportData : list Summary.t) (patientId : string) : list Summary.t :=
  match found (store !! patientId) with
  | Some patient => push reportData (summary patient)
  | None => reportData
  end.

(** [GET /generateReports] *)
Definition generateReports (now : Timestamp) (s : State)
    : Response (list Summary.t) * State :=
  let reportData := foldl (collect (patients s)) [] (keys (patients s)) in
  let s := logAction now (Some "admin") "Generated patient reports" s in
  (Ok reportData, s).

(** One request served; the states the service can be in are those that a
    run of requests reaches from [init]. *)
Inductive step (s : State) : State → Prop :=
  | step_createDoctor uuid now name role department :
      step s (createDoctor uuid now name role department s).2
  | step_createPatient uuid now name age mh ct ad :
      step s (createPatient uuid now name age mh ct ad s).2
  | step_updatePatient now patientId name age mh ct ad :
      step s (updatePatient now patientId name age mh ct ad s).2
  | step_addReport now patientId report :
      step s (addReport now patientId report s).2
  | step_deleteReport now patientId reportId :
      step s (deleteReport now patientId reportId s).2
  | step_assignDoctor now patientId doctorId :
      step s (assignDoctor now patientId doctorId s).2
  | step_generateReports now :
      step s (generateReports now s).2
  | step_read : step s s.

Definition reachable (s : State) : Prop := rtc step init s.

(** What a run leaves under a key: under the text of a UUID a record, which
    when it has a [doctorId] or a [patientId] has its key there and the
    properties validation has tested; under the text of an instant a
    non-empty audit line. *)
Definition stored_ok (key : string) (v : Value) : Prop :=
  match v with
  | VObject o =>
      is_uuid key = true
      ∧ (is_Some (Obj.doctorId o) →
         Obj.doctorId o = Some key ∧ Obj.patientId o = None
         ∧ truthy (Obj.name o) = true ∧ truthy (Obj.role o) = true
         ∧ truthy (Obj.department o) = true)
      ∧ (is_Some (Obj.patientId o) →
         Obj.patientId o = Some key ∧ Obj.doctorId o = None
         ∧ truthy (Obj.name o) = true ∧ truthy (Obj.age o) = true
         ∧ is_Some (Obj.reports o))
      ∧ (is_Some (Obj.doctorId o) ∨ is_Some (Obj.patientId o))
  | VString line => is_timestamp key = true ∧ line ≠ ""
  end.

Definition store_ok (s : State) : Prop :=
  ∀ key v, memory100 s !! key = Some v → stored_ok key v.

(** The audit lines of the store: its string values. *)
Definition lines (store : gmap string Value) : gmap string string :=
  omap (λ v, match v with VString line => Some line | VObject _ => None end)
       store.

(** The records of the store. *)
Definition records (store : gmap string Value) : gmap string Obj.t :=
  omap (λ v, match v with VObject o => Some o | VString _ => None end) store.

(** The example run: a doctor, a patient of that doctor, one report, and a
    second doctor. *)
Definition example1 : State :=
  (createDoctor doctorA instant0 (Some "Dr. A") (Some "FullAccess")
     (Some "Cardio") init).2.

Definition example2 : State :=
  (createPatient patientA instant1 (Some "P1") (Some 40) None None
     (Some (uuid_text doctorA)) example1).2.

Definition example3 : State :=
  (addReport instant2 (uuid_text patientA) (Some "x-ray clear") example2).2.

Definition example4 : State :=
  (createDoctor doctorB instant3 (Some "Dr. B") (Some "ReadOnly")
     (Some "Neuro") example3).2.

End Index.

(** ** The text of a principal

    [Principal.toText()] and [Principal.fromText()] of the principal
    library: a principal is a sequence of bytes; its text is the base-32
    form of its CRC-32 followed by its bytes, in groups of five characters;
    [fromText] decodes a text and throws ([None]) unless the principal it
    decodes to has that very text. *)

Module Principal.

Definition t : Type := list N.

Definition crc32_bit (crc : N) : N :=
  if N.odd crc then N.lxor (N.shiftr crc 1) 3988292384 else N.shiftr crc 1.

Definition crc32_byte (crc byte : N) : N :=
  Nat.iter 8 crc32_bit (N.lxor crc byte).

Definition getCrc32 (bytes : list N) : N :=
  N.lxor (foldl crc32_byte 4294967295%N bytes) 4294967295.

(** The [width] low bits of [n], the highest first. *)
Fixpoint bitsOf (width : nat) (n : N) : list bool :=
  match width with
  | O => []
  | S w => N.testbit n (N.of_nat w) :: bitsOf w n
  end.

Definition valueOf (bits : list bool) : N :=
  foldl (λ acc (b : bool), (2 * acc + (if b then 1 else 0))%N) 0%N bits.

(** [bits] in groups of [size]; the last group is filled with zeros when
    [pad] and dropped otherwise. *)
Fixpoint groups (fuel size : nat) (pad : bool) (bits : list bool)
    : list (list bool) :=
  match fuel with
  | O => []
  | S fuel =>
      match bits with
      | [] => []
      | _ =>
          if decide (size ≤ length bits)%nat
          then take size bits :: groups fuel size pad (drop size bits)
          else if pad then [take size (bits ++ replicate size false)%list] else []
      end
  end.

Definition alphabet : string := "abcdefghijklmnopqrstuvwxyz234567".

Definition encodeChar (v : N) : ascii :=
  default "a"%char (String.get (N.to_nat v) alphabet).

(** The value of a base-32 character; [0] and [1] read as [o] and [i]. *)
Definition decodeChar (a : ascii) : option N :=
  let n := Z.to_N (code a) in
  if is_char "0" a then Some 14%N
  else if is_char "1" a then Some 8%N
  else if (97 <=? code a) && (code a <=? 122) then Some (n - 97)%N
  else if (50 <=? code a) && (code a <=? 55) then Some (n - 24)%N
  else None.

Definition encode (bytes : list N) : string :=
  let bits := bytes ≫= bitsOf 8 in
  String.string_of_list_ascii
    (encodeChar ∘ valueOf <$> groups (length bits) 5 true bits).

Definition decode (text : string) : option (list N) :=
  values ← mapM decodeChar (String.list_ascii_of_string text);
  let bits := values ≫= bitsOf 5 in
  Some (valueOf <$> groups (length bits) 8 false bits).

(** [result.match(/.{1,5}/g).join('-')] *)
Fixpoint dashed (fuel : nat) (chars : list ascii) : list ascii :=
  match fuel with
  | O => chars
  | S fuel =>
      if decide (length chars ≤ 5)%nat then chars
      else (take 5 chars ++ "-"%char :: dashed fuel (drop 5 chars))%list
  end.

Definition toText (principal : t) : string :=
  let checksum := valueOf <$> groups 32 8 false (bitsOf 32 (getCrc32 principal)) in
  let result := String.list_ascii_of_string (encode (checksum ++ principal)) in
  String.string_of_list_ascii (dashed (length result) result).

Definition toLowerCase (a : ascii) : ascii :=
  if (65 <=? code a) && (code a <=? 90)
  then ascii_of_N (Z.to_N (code a + 32)) else a.

Definition canonical (text : string) : string :=
  String.string_of_list_ascii
    (filter (λ a, negb (is_char "-" a) = true)
       (toLowerCase <$> String.list_ascii_of_string text)).

Definition fromText (text : string) : option t :=
  arr ← decode (canonical text);
  let principal := drop 4 arr in
  if decide (toText principal = text) then Some principal else None.

End Principal.

(** ** src/backup.ts: the variant with [Principal] doctor identifiers *)

Module Backup.

Module Obj.
Record t {Principal : Type} := mk {
  doctorId : option Principal;
  name : option string;
  role : option string;
  department : option string;
  patientId : option string;
  age : option Z;
  medicalHistory : option (list string);
  currentTreatment : option string;
  assignedDoctor : option Principal;
  reports : option (list (option string))
}.
Arguments t : clear implicits.
End Obj.

Inductive Value {Principal : Type} :=
  | VObject (o : Obj.t Principal)
  | VString (line : string).
Arguments Value : clear implicits.

#[global] Instance value_truthy {Principal} : Truthy (Value Principal) :=
  λ v, match v with VObject _ => true | VString line => truthy line end.

(** [x.field] read off a value a handle answered. *)
Definition prop {Principal A} (field : Obj.t Principal → option A)
    (x : Value Principal) : option A :=
  match x with
  | VObject o => field o
  | VString _ => None
  end.

(** An element of [reportData] in [/generateReports]; the assigned doctor
    is listed by its text. *)
Module Summary.
Record t := mk {
  patientId : option string;
  name : option string;
  currentTreatment : option string;
  assignedDoctor : string;
  reports : option (list (option string))
}.
End Summary.

(** The store of memory id 100: [doctors] is keyed by principals ([inr]),
    [patients] and [auditLogs] by strings ([inl]); a serialised principal is
    never the serialisation of a string. *)
Record State `{Countable Principal} := mkState {
  memory100 : gmap (string + Principal) (Value Principal)
}.
Arguments State Principal {_ _}.

Section Routes.
Context `{Countable Principal}.

(** [Principal.fromText], which throws on a text that is no principal
    ([None]), and [principal.toText()]. *)
Variable fromText : string → option Principal.
Variable toText : Principal → string.

Definition doctors (s : State Principal) := memory100 s.
Definition patients (s : State Principal) := memory100 s.
Definition auditLogs (s : State Principal) := memory100 s.

Definition init : State Principal := mkState _ _ _ ∅.

Definition doctors_insert (key : Principal) (d : Value Principal)
    (s : State Principal) : State Principal :=
  mkState _ _ _ (<[inr key := d]> (memory100 s)).

Definition patients_insert (key : string) (p : Value Principal)
    (s : State Principal) : State Principal :=
  mkState _ _ _ (<[inl key := p]> (memory100 s)).

Definition patients_remove (key : string) (s : State Principal)
    : State Principal :=
  mkState _ _ _ (delete (inl key) (memory100 s)).

Definition auditLogs_insert (key : string) (line : Value Principal)
    (s : State Principal) : State Principal :=
  mkState _ _ _ (<[inl key := line]> (memory100 s)).

(** The bytes a key is stored as: [JSON.stringify] of a string, and of the
    object that stands for a principal. *)
Definition encodeKey (key : string + Principal) : string :=
  match key with
  | inl text => jsonQuote text
  | inr principal =>
      "{" +:+ jsonQuote "__principal__" +:+ ":"
      +:+ jsonQuote (toText principal) +:+ "}"
  end.

(** [patients.keys()] *)
Definition keys (store : gmap (string + Principal) (Value Principal))
    : list (string + Principal) :=
  keysBy encodeKey store.

(** [logAction(user, action)] *)
Definition logAction (now : Timestamp) (user : Principal) (action : string)
    (s : State Principal) : State Principal :=
  let timestamp := timestamp_text now in
  auditLogs_insert timestamp (VString (auditLine (toText user) action)) s.

(** [POST /addDoctor]; [Principal.fromText(doctorId)] is evaluated while
    the record is built, before the store is written. *)
Definition addDoctor (now : Timestamp)
    (doctorId name role department : option string)
    (s : State Principal) : Response unit * State Principal :=
  if negb (truthy doctorId) || negb (truthy name) || negb (truthy role)
     || negb (truthy department)
  then (Fail ValidationError, s)
  else
    match doctorId ≫= fromText with
    | None => (Fail InternalError, s)
    | Some principal =>
        let newDoctor :=
          Obj.mk _ (Some principal) name role department
                 None None None None None None in
        let s := doctors_insert principal (VObject newDoctor) s in
        let s := logAction now principal "Added new doctor" s in
        (Ok (), s)
    end.

(** [POST /addPatient], the first handler registered on the path (the
    second, of the same text, is never reached).  Validation has
    established that [patientId] is present where the record is built. *)
Definition addPatient (now : Timestamp) (patientId name : option string)
    (age : option Z) (medicalHistory : option (list string))
    (currentTreatment assignedDoctor : option string)
    (s : State Principal) : Response unit * State Principal :=
  let patientInput :=
    PatientDto.mk patientId name age medicalHistory currentTreatment
                  assignedDoctor in
  if negb (validatePatientInput patientInput)
  then (Fail ValidationError, s)
  else
    match patientId, assignedDoctor ≫= fromText with
    | Some id, Some principal =>
        let newPatient :=
          Obj.mk _ None name None None (Some id) age medicalHistory
                 currentTreatment (Some principal) (Some []) in
        let s := patients_insert id (VObject newPatient) s in
        let s := logAction now principal ("Added patient record: " +:+ id) s in
        (Ok (), s)
    | Some _, None => (Fail InternalError, s)
    | None, _ => (Fail ValidationError, s)
    end.

(** [DELETE /deletePatient/:patientId/:doctorId]; [logAction] throws, after
    the removal, where the value found has no [doctorId]. *)
Definition deletePatient (now : Timestamp) (patientId doctorId : string)
    (s : State Principal) : Response unit * State Principal :=
  match fromText doctorId with
  | None => (Fail InternalError, s)
  | Some principal =>
      match found (doctors s !! inr principal) with
      | None => (Fail NotFound, s)
      | Some doctor =>
          if bool_decide (prop Obj.role doctor = Some "FullAccess") then
            let s := patients_remove patientId s in
            match prop Obj.doctorId doctor with
            | Some user =>
                let s := logAction now user
                           ("Deleted patient record: " +:+ patientId) s in
                (Ok (), s)
            | None => (Fail InternalError, s)
            end
          else (Fail PermissionDenied, s)
      end
  end.

(** [patient.assignedDoctor = doctorId], every other property kept. *)
Definition with_assignedDoctor (patient : Obj.t Principal)
    (doctorId : option Principal) : Obj.t Principal :=
  Obj.mk _ (Obj.doctorId patient) (Obj.name patient) (Obj.role patient)
         (Obj.department patient) (Obj.patientId patient) (Obj.age patient)
         (Obj.medicalHistory patient) (Obj.currentTreatment patient)
         doctorId (Obj.reports patient).

(** [PUT /assignDoctor]; both lookups, and with them
    [Principal.fromText(doctorId)], come before the test; the assignment
    throws on a string, and [logAction], after the insert, where the value
    found has no [doctorId]. *)
Definition assignDoctor (now : Timestamp) (patientId doctorId : string)
    (s : State Principal) : Response unit * State Principal :=
  match fromText doctorId with
  | None => (Fail InternalError, s)
  | Some principal =>
      match found (patients s !! inl patientId),
            found (doctors s !! inr principal) with
      | Some patient, Some doctor =>
          match patient with
          | VObject patient =>
              let patient :=
                with_assignedDoctor patient (prop Obj.doctorId doctor) in
              let s := patients_insert patientId (VObject patient) s in
              match prop Obj.doctorId doctor with
              | Some user =>
                  let s := logAction now user
                             ("Assigned to patient: " +:+ patientId) s in
                  (Ok (), s)
              | None => (Fail InternalError, s)
              end
          | VString _ => (Fail InternalError, s)
          end
      | _, _ => (Fail NotFound, s)
      end
  end.

(** The body of [patients.keys().forEach(...)]; [None] once
    [patient.assignedDoctor.toText()] has thrown. *)
Definition collect (store : gmap (string + Principal) (Value Principal))
    (reportData : option (list Summary.t)) (patientId : string + Principal)
    : option (list Summary.t) :=
  match reportData with
  | Some reportData =>
      match found (store !! patientId) with
      | Some patient =>
          match prop Obj.assignedDoctor patient with
          | Some doctor =>
              Some (push reportData
                      (Summary.mk (prop Obj.patientId patient)
                         (prop Obj.name patient)
                         (prop Obj.currentTreatment patient)
                         (toText doctor) (prop Obj.reports patient)))
          | None => None
          end
      | None => Some reportData
      end
  | None => None
  end.

(** [GET /generateReports]; [Principal.fromText('admin')] is evaluated after
    the data is collected and before the audit write and the answer. *)
Definition generateReports (now : Timestamp) (s : State Principal)
    : Response (list Summary.t) * State Principal :=
  match foldl (collect (patients s)) (Some []) (keys (patients s)) with
  | None => (Fail InternalError, s)
  | Some reportData =>
      match fromText "admin" with
      | None => (Fail InternalError, s)
      | Some admin =>
          let s := logAction now admin "Generated patient reports" s in
          (Ok reportData, s)
      end
  end.

(** One request served by this variant, and the states its runs reach. *)
Inductive step (s : State Principal) : State Principal → Prop :=
  | step_addDoctor now doctorId name role department :
      step s (addDoctor now doctorId name role department s).2
  | step_addPatient now patientId name age mh ct ad :
      step s (addPatient now patientId name age mh ct ad s).2
  | step_deletePatient now patientId doctorId :
      step s (deletePatient now patientId doctorId s).2
  | step_assignDoctor now patientId doctorId :
      step s (assignDoctor now patientId doctorId s).2
  | step_generateReports now :
      step s (generateReports now s).2.

Definition reachable (s : State Principal) : Prop := rtc step init s.

(** What a run leaves under a key: under a principal a doctor with that
    [doctorId] and the properties validation has tested; under a string a
    non-empty audit line, or a patient with that non-empty [patientId], the
    tested properties, an assigned doctor and a list of reports. *)
Definition stored_ok (key : string + Principal) (v : Value Principal) : Prop :=
  match key, v with
  | inr principal, VObject o =>
      Obj.doctorId o = Some principal
      ∧ truthy (Obj.name o) = true ∧ truthy (Obj.role o) = true
      ∧ truthy (Obj.department o) = true
  | inr _, VString _ => False
  | inl id, VObject o =>
      Obj.patientId o = Some id ∧ id ≠ "" ∧ Obj.doctorId o = None
      ∧ Obj.role o = None
      ∧ truthy (Obj.name o) = true ∧ truthy (Obj.age o) = true
      ∧ is_Some (Obj.assignedDoctor o) ∧ is_Some (Obj.reports o)
  | inl text, VString line => is_timestamp text = true ∧ line ≠ ""
  end.

Definition store_ok (s : State Principal) : Prop :=
  ∀ key v, memory100 s !! key = Some v → stored_ok key v.

End Routes.

(** A run under the principal library: the management canister's
    principal as a doctor with full access, the anonymous principal as a
    read-only doctor, and a patient. *)
Definition example1 : State Principal.t :=
  (addDoctor Principal.fromText Principal.toText instant0
     (Some "aaaaa-aa") (Some "Dr. A") (Some "FullAccess") (Some "Cardio")
     (init (Principal := Principal.t))).2.

Definition example2 : State Principal.t :=
  (addDoctor Principal.fromText Principal.toText instant1
     (Some "2vxsx-fae") (Some "Dr. B") (Some "ReadOnly") (Some "Cardio")
     example1).2.

Definition example3 : State Principal.t :=
  (addPatient Principal.fromText Principal.toText instant2
     (Some "p1") (Some "P1") (Some 40) None None (Some "aaaaa-aa")
     example2).2.

End Backup.

(** * Properties *)

(** ** Validation *)

Lemma validatePatientInput_true input :
  validatePatientInput input = true ↔
    truthy (PatientDto.patientId input) = true
    ∧ truthy (PatientDto.name input) = true
    ∧ truthy (PatientDto.age input) = true
    ∧ truthy (PatientDto.assignedDoctor input) = true.
Proof.
  unfold validatePatientInput.
  destruct (truthy (PatientDto.patientId input)),
    (truthy (PatientDto.name input)),
    (truthy (PatientDto.age input)),
    (truthy (PatientDto.assignedDoctor input)); simpl; intuition congruence.
Qed.

Lemma validatePatientInput_false input :
  validatePatientInput input = false ↔
    truthy (PatientDto.patientId input) = false
    ∨ truthy (PatientDto.name input) = false
    ∨ truthy (PatientDto.age input) = false
    ∨ truthy (PatientDto.assignedDoctor input) = false.
Proof.
  unfold validatePatientInput.
  destruct (truthy (PatientDto.patientId input)),
    (truthy (PatientDto.name input)),
    (truthy (PatientDto.age input)),
    (truthy (PatientDto.assignedDoctor input)); simpl; intuition congruence.
Qed.

Lemma truthy_string_nonempty (s : string) : truthy s = true ↔ s ≠ "".
Proof. destruct s; cbv [truthy string_truthy]; split; intros; congruence. Qed.

Lemma truthy_age_zero : truthy (Some 0) = false.
Proof. reflexivity. Qed.

(** ** Identifiers and instants never coincide *)

Lemma matches_length pattern s :
  matches pattern s = true → String.length s = length pattern.
Proof.
  revert s. induction pattern as [|test pattern IH]; intros [|a s]; simpl;
    try discriminate; [reflexivity|].
  intros [_ Hm]%andb_true_iff. by rewrite (IH s Hm).
Qed.

Lemma uuid_not_timestamp (a b : string) :
  is_uuid a = true → is_timestamp b = true → a ≠ b.
Proof.
  unfold is_uuid, is_timestamp. intros Ha Hb ->.
  apply matches_length in Ha.
  apply orb_true_iff in Hb as [Hb|Hb]; apply matches_length in Hb;
    rewrite Ha in Hb; vm_compute in Hb; discriminate.
Qed.

Lemma uuid_timestamp_ne (uuid : Uuid) (now : Timestamp) :
  uuid_text uuid ≠ timestamp_text now.
Proof. apply uuid_not_timestamp; [apply uuid_wf|apply timestamp_wf]. Qed.

Lemma uuid_nonempty (uuid : Uuid) : truthy (uuid_text uuid) = true.
Proof.
  destruct uuid as [text Hwf]. simpl. destruct text; [discriminate|reflexivity].
Qed.

(** ** Writes to a map of audit lines *)

Section audit_store.
Context (log : gmap string string) (timestamp line : string).


Lemma audit_insert_fresh :
  log !! timestamp = None →
  size (<[timestamp := line]> log) = S (size log)
  ∧ ∀ key old, log !! key = Some old →
               <[timestamp := line]> log !! key = Some old.
Proof.
  intros Hfresh. split; [by apply map_size_insert_None|].
  intros key old Hold. rewrite lookup_insert_ne; [done|congruence].
Qed.

End audit_store.

(** ** The order of the keys *)

Lemma keysBy_Permutation `{Countable K} {V} (encode : K → string)
    (store : gmap K V) :
  keysBy encode store ≡ₚ (map_to_list store).*1.
Proof. apply merge_sort_Permutation. Qed.

Lemma keysBy_once `{Countable K} {V} (encode : K → string) (store : gmap K V) :
  NoDup (keysBy encode store)
  ∧ ∀ key, key ∈ keysBy encode store ↔ is_Some (store !! key).
Proof.
  split.
  - rewrite keysBy_Permutation. apply NoDup_fst_map_to_list.
  - intros key. rewrite keysBy_Permutation, list_elem_of_fmap. split.
    + intros ([k v] & -> & Hkv). apply elem_of_map_to_list in Hkv. eauto.
    + intros [v Hv]. exists (key, v). by rewrite elem_of_map_to_list.
Qed.

Lemma length_keysBy `{Countable K} {V} (encode : K → string) (store : gmap K V) :
  length (keysBy encode store) = size store.
Proof.
  rewrite keysBy_Permutation, length_fmap. apply length_map_to_list.
Qed.

Lemma auditLine_nonempty (user action : string) : auditLine user action ≠ "".
Proof. unfold auditLine. destruct user; discriminate. Qed.

Lemma found_Some `{Truthy V} (x : option V) (v : V) :
  found x = Some v ↔ x = Some v ∧ truthy v = true.
Proof.
  unfold found. destruct x as [w|]; [|split; [discriminate|intros [? _]; discriminate]].
  destruct (truthy w) eqn:Hw; split.
  - intros [= ->]. auto.
  - intros [[= ->] _]. reflexivity.
  - discriminate.
  - intros [[= ->] Hv]. congruence.
Qed.

Lemma found_None `{Truthy V} (x : option V) : x = None → found x = None.
Proof. by intros ->. Qed.

Module IndexFacts.
Import Index.

Lemma found_object (store : gmap string Value) key o :
  store !! key = Some (VObject o) → found (store !! key) = Some (VObject o).
Proof. by intros ->. Qed.

(** ** What a run leaves in the store *)

Lemma store_ok_insert key v s :
  store_ok s → stored_ok key v → store_ok (mkState (<[key := v]> (memory100 s))).
Proof.
  intros Hs Hv k w. simpl. rewrite lookup_insert. case_decide as Hk.
  - intros [= <-]. by rewrite <- Hk.
  - apply Hs.
Qed.

Lemma store_ok_logAction now userId action s :
  store_ok s → store_ok (logAction now userId action s).
Proof.
  intros Hs. apply store_ok_insert; [assumption|]. simpl.
  split; [apply timestamp_wf|apply auditLine_nonempty].
Qed.

Lemma stored_ok_with_reports key patient reports :
  stored_ok key (VObject patient) →
  stored_ok key (VObject (with_reports patient reports)).
Proof.
  simpl. intros (Hkey & Hdoc & Hpat & Hkind).
  split; [assumption|]. split; [assumption|]. split; [|assumption].
  intros Hp. destruct (Hpat Hp) as (? & ? & ? & ? & _). eauto 10.
Qed.

Lemma stored_ok_with_assignedDoctor key patient doctorId :
  stored_ok key (VObject patient) →
  stored_ok key (VObject (with_assignedDoctor patient doctorId)).
Proof. simpl. tauto. Qed.

Lemma step_ok s s' : step s s' → store_ok s → store_ok s'.
Proof.
  intros Hstep Hs. destruct Hstep.
  - unfold createDoctor.
    destruct (truthy name) eqn:Hn, (truthy role) eqn:Hr,
      (truthy department) eqn:Hd; simpl; try assumption.
    apply store_ok_logAction, store_ok_insert; [assumption|]. simpl.
    split; [apply uuid_wf|]. split; [auto|]. split; [|eauto].
    intros [? [=]].
  - unfold createPatient. destruct (validatePatientInput _) eqn:Hv; simpl;
      [|assumption].
    apply validatePatientInput_true in Hv as (Hid & Hn & Ha & Had).
    simpl in *.
    apply store_ok_logAction, store_ok_insert; [assumption|]. simpl.
    split; [apply uuid_wf|]. split; [intros [? [=]]|]. split; [|eauto].
    intros _. eauto 10.
  - unfold updatePatient. destruct (validatePatientInput _) eqn:Hv; simpl;
      [|assumption].
    apply validatePatientInput_true in Hv as (Hid & Hn & Ha & Had).
    simpl in *.
    destruct (found (patients s !! patientId)) as [[patient|line]|] eqn:Hp;
      simpl; try assumption.
    apply found_Some in Hp as [Hp _].
    apply store_ok_logAction, store_ok_insert; [assumption|].
    destruct (Hs _ _ Hp) as (Hkey & Hdoc & Hpat & Hkind). simpl.
    split; [assumption|]. split; [|split; [|assumption]].
    + intros Hd. destruct (Hdoc Hd) as (? & ? & ? & ? & ?). auto.
    + intros Hpid. destruct (Hpat Hpid) as (? & ? & ? & ? & ?). auto.
  - unfold addReport.
    destruct (found (patients s !! patientId)) as [[patient|line]|] eqn:Hp;
      simpl; try assumption.
    destruct (Obj.reports patient) as [reports|] eqn:Hr; simpl; [|assumption].
    apply found_Some in Hp as [Hp _].
    apply store_ok_logAction, store_ok_insert; [assumption|].
    apply stored_ok_with_reports, (Hs _ _ Hp).
  - unfold deleteReport.
    destruct (found (patients s !! patientId)) as [patient|] eqn:Hp;
      simpl; [|assumption].
    destruct (nonNegative _); [|assumption].
    destruct patient as [patient|line]; [|assumption].
    destruct (Obj.reports patient) as [reports|] eqn:Hr; simpl; [|assumption].
    destruct (inRange _ _); simpl; [|assumption].
    apply found_Some in Hp as [Hp _].
    apply store_ok_logAction, store_ok_insert; [assumption|].
    apply stored_ok_with_reports, (Hs _ _ Hp).
  - unfold assignDoctor.
    destruct (found (patients s !! patientId)) as [patient|] eqn:Hp;
      simpl; [|assumption].
    destruct (found (doctors s !! doctorId)) as [doctor|]; [|assumption].
    destruct patient as [patient|line]; [|assumption].
    apply found_Some in Hp as [Hp _].
    apply store_ok_logAction, store_ok_insert; [assumption|].
    apply stored_ok_with_assignedDoctor, (Hs _ _ Hp).
  - unfold generateReports. simpl. by apply store_ok_logAction.
  - assumption.
Qed.

Lemma reachable_ok s : reachable s → store_ok s.
Proof.
  unfold reachable. revert s. apply rtc_ind_r.
  - intros key v. simpl. by rewrite lookup_empty.
  - intros s2 s3 _ Hstep IH. by apply (step_ok s2 s3).
Qed.

Lemma reachable_step s s' : reachable s → step s s' → reachable s'.
Proof. unfold reachable. intros Hrun Hstep. by eapply rtc_r. Qed.

(** In a reachable state a record is stored under no instant, and every
    stored value passes [if (x)]. *)
Lemma reachable_record_key s key o (now : Timestamp) :
  reachable s → memory100 s !! key = Some (VObject o) →
  key ≠ timestamp_text now.
Proof.
  intros Hreach Hkey. destruct (reachable_ok s Hreach _ _ Hkey) as (Huuid & _).
  apply uuid_not_timestamp; [assumption|apply timestamp_wf].
Qed.

Lemma reachable_truthy s key v :
  reachable s → memory100 s !! key = Some v → truthy v = true.
Proof.
  intros Hreach Hkey. pose proof (reachable_ok s Hreach _ _ Hkey) as Hok.
  destruct v as [o|line]; [reflexivity|]. destruct Hok as [_ Hline].
  by apply truthy_string_nonempty.
Qed.

Lemma reachable_example1 : reachable example1.
Proof. eapply reachable_step; [apply rtc_refl|apply step_createDoctor]. Qed.

Lemma reachable_example2 : reachable example2.
Proof.
  eapply reachable_step; [apply reachable_example1|apply step_createPatient].
Qed.

Lemma reachable_example3 : reachable example3.
Proof.
  eapply reachable_step; [apply reachable_example2|apply step_addReport].
Qed.

Lemma reachable_example4 : reachable example4.
Proof.
  eapply reachable_step; [apply reachable_example3|apply step_createDoctor].
Qed.

(** ** Validation of the patient routes *)

Lemma createPatient_invalid uuid now name age mh ct ad s :
  validatePatientInput (PatientDto.mk (Some (uuid_text uuid)) name age mh ct ad)
  = false →
  createPatient uuid now name age mh ct ad s = (Fail ValidationError, s).
Proof. intros Hv. unfold createPatient. by rewrite Hv. Qed.

Lemma createPatient_valid uuid now name age mh ct ad s :
  validatePatientInput (PatientDto.mk (Some (uuid_text uuid)) name age mh ct ad)
  = true →
  let newPatient :=
    Obj.mk None name None None (Some (uuid_text uuid)) age
           (Some (default [] mh)) ct ad (Some []) in
  createPatient uuid now name age mh ct ad s =
    (Ok newPatient,
     logAction now ad ("Added patient record: " +:+ uuid_text uuid)
       (patients_insert (uuid_text uuid) (VObject newPatient) s)).
Proof. intros Hv. unfold createPatient. by rewrite Hv. Qed.

Lemma updatePatient_invalid now patientId name age mh ct ad s :
  validatePatientInput (PatientDto.mk (Some patientId) name age mh ct ad) = false →
  updatePatient now patientId name age mh ct ad s = (Fail ValidationError, s).
Proof. intros Hv. unfold updatePatient. by rewrite Hv. Qed.

Lemma updatePatient_valid_not_400 now patientId name age mh ct ad s :
  validatePatientInput (PatientDto.mk (Some patientId) name age mh ct ad) = true →
  (updatePatient now patientId name age mh ct ad s).1 ≠ Fail ValidationError.
Proof.
  intros Hv. unfold updatePatient. rewrite Hv. simpl.
  destruct (found (patients s !! patientId)) as [[patient|line]|]; discriminate.
Qed.

Lemma updatePatient_present now patientId name age mh ct ad s patient :
  validatePatientInput (PatientDto.mk (Some patientId) name age mh ct ad) = true →
  patients s !! patientId = Some (VObject patient) →
  let patient' :=
    Obj.mk (Obj.doctorId patient) name (Obj.role patient)
           (Obj.department patient) (Obj.patientId patient) age mh ct ad
           (Obj.reports patient) in
  updatePatient now patientId name age mh ct ad s =
    (Ok patient',
     logAction now ad ("Updated patient record: " +:+ patientId)
       (patients_insert patientId (VObject patient') s)).
Proof.
  intros Hv Hp. unfold updatePatient. by rewrite Hv, (found_object _ _ _ Hp).
Qed.

(** C2. [createPatient], and [updatePatient] by the same rule, answer
    ValidationError exactly when the patient id, the name, the age or the
    assigned doctor is missing or falsy (an age of 0 is); the store is then
    unchanged; and an input that passes is accepted although nothing is
    stored under its assignedDoctor. *)
Theorem patient_validation (uuid : Uuid) (now : Timestamp) (patientId : string)
    (name : option string) (age : option Z) (mh : option (list string))
    (ct ad : option string) (s : State) :
  ((createPatient uuid now name age mh ct ad s).1 = Fail ValidationError ↔
     truthy (uuid_text uuid) = false ∨ truthy name = false
     ∨ truthy age = false ∨ truthy ad = false)
  ∧ ((updatePatient now patientId name age mh ct ad s).1 = Fail ValidationError ↔
     truthy patientId = false ∨ truthy name = false ∨ truthy age = false
     ∨ truthy ad = false)
  ∧ ((createPatient uuid now name age mh ct ad s).1 = Fail ValidationError →
     (createPatient uuid now name age mh ct ad s).2 = s)
  ∧ ((updatePatient now patientId name age mh ct ad s).1 = Fail ValidationError →
     (updatePatient now patientId name age mh ct ad s).2 = s)
  ∧ (age = Some 0 →
     createPatient uuid now name age mh ct ad s = (Fail ValidationError, s)
     ∧ updatePatient now patientId name age mh ct ad s
       = (Fail ValidationError, s))
  ∧ (∀ doctorId, ad = Some doctorId → doctors s !! doctorId = None →
     truthy name = true → truthy age = true → truthy doctorId = true →
     ∃ p, (createPatient uuid now name age mh ct ad s).1 = Ok p
          ∧ Obj.assignedDoctor p = Some doctorId
          ∧ patients (createPatient uuid now name age mh ct ad s).2
              !! uuid_text uuid = Some (VObject p)).
Proof.
  set (created := PatientDto.mk (Some (uuid_text uuid)) name age mh ct ad).
  set (updated := PatientDto.mk (Some patientId) name age mh ct ad).
  pose proof (validatePatientInput_false created) as Hcf. simpl in Hcf.
  pose proof (validatePatientInput_true created) as Hct. simpl in Hct.
  pose proof (validatePatientInput_false updated) as Huf. simpl in Huf.
  assert (Hc : validatePatientInput created = true
               ∨ validatePatientInput created = false)
    by (destruct (validatePatientInput created); auto).
  assert (Hu : validatePatientInput updated = true
               ∨ validatePatientInput updated = false)
    by (destruct (validatePatientInput updated); auto).
  split; [split|split; [split|split; [|split; [|split]]]].
  - destruct Hc as [Hv|Hv]; [|tauto].
    rewrite (createPatient_valid _ _ _ _ _ _ _ s Hv). discriminate.
  - intros Hf. apply Hcf in Hf.
    by rewrite (createPatient_invalid _ _ _ _ _ _ _ s Hf).
  - destruct Hu as [Hv|Hv]; [|tauto]. intros Hr.
    by apply (updatePatient_valid_not_400 now _ _ _ _ _ _ s) in Hv.
  - intros Hf. apply Huf in Hf.
    by rewrite (updatePatient_invalid _ _ _ _ _ _ _ s Hf).
  - destruct Hc as [Hv|Hv].
    + rewrite (createPatient_valid _ _ _ _ _ _ _ s Hv). discriminate.
    + by rewrite (createPatient_invalid _ _ _ _ _ _ _ s Hv).
  - destruct Hu as [Hv|Hv].
    + intros Hr. by apply (updatePatient_valid_not_400 now _ _ _ _ _ _ s) in Hv.
    + by rewrite (updatePatient_invalid _ _ _ _ _ _ _ s Hv).
  - intros ->. split.
    + apply createPatient_invalid, Hcf. auto.
    + apply updatePatient_invalid, Huf. auto.
  - intros doctorId -> _ Hname Hage Hdoc.
    assert (Hv : validatePatientInput created = true).
    { apply Hct. split; [apply uuid_nonempty|auto]. }
    rewrite (createPatient_valid _ _ _ _ _ _ _ s Hv). simpl.
    eexists. split; [reflexivity|]. split; [reflexivity|].
    unfold patients. simpl.
    rewrite lookup_insert_ne by (apply not_eq_sym, uuid_timestamp_ne).
    apply lookup_insert_eq.
Qed.

(** An empty name is rejected and nothing is stored. *)
Lemma patient_validation_witness :
  (createPatient patientA instant0 (Some "") (Some 40) None None
     (Some (uuid_text doctorA)) init).2 = init.
Proof.
  destruct (patient_validation patientA instant0 (uuid_text patientA) (Some "")
              (Some 40) None None (Some (uuid_text doctorA)) init)
    as (Hiff & _ & Hsame & _).
  apply Hsame, Hiff. right. left. reflexivity.
Defined.

(** ** Doctors *)


Lemma createDoctor_valid uuid now name role department s :
  truthy name = true → truthy role = true → truthy department = true →
  let newDoctor :=
    Obj.mk (Some (uuid_text uuid)) name role department
           None None None None None None in
  createDoctor uuid now name role department s =
    (Ok newDoctor,
     logAction now (Some (uuid_text uuid)) "Added new doctor"
       (doctors_insert (uuid_text uuid) (VObject newDoctor) s)).
Proof. intros Hn Hr Hd. unfold createDoctor. by rewrite Hn, Hr, Hd. Qed.




(** ** Reports *)

Lemma inRange_true reportIndex n :
  inRange reportIndex n = true ↔
    ∃ i, reportIndex = Some i ∧ 0 ≤ i < Z.of_nat n.
Proof.
  unfold inRange. destruct reportIndex as [i|].
  - rewrite andb_true_iff, Z.leb_le, Z.ltb_lt. split.
    + intros Hi. exists i. auto.
    + intros (j & [= <-] & Hj). exact Hj.
  - split; [discriminate|]. intros (i & Hi & _). discriminate.
Qed.

Lemma splice1_length {A} (i : Z) (l : list A) :
  0 ≤ i < Z.of_nat (length l) → S (length (splice1 i l)) = length l.
Proof.
  intros Hi. unfold splice1.
  rewrite length_delete by (apply lookup_lt_is_Some_2; lia). lia.
Qed.

Lemma splice1_before {A} (i : Z) (l : list A) (j : nat) :
  (j < Z.to_nat i)%nat → splice1 i l !! j = l !! j.
Proof. intros Hj. unfold splice1. by apply list_lookup_delete_lt. Qed.

Lemma splice1_after {A} (i : Z) (l : list A) (j : nat) :
  (Z.to_nat i ≤ j)%nat → splice1 i l !! j = l !! S j.
Proof. intros Hj. unfold splice1. by apply list_lookup_delete_ge. Qed.

Lemma addReport_present now patientId report s patient reports :
  patients s !! patientId = Some (VObject patient) →
  Obj.reports patient = Some reports →
  addReport now patientId report s =
    (Ok (push reports report),
     logAction now (Obj.assignedDoctor patient)
       ("Added report for patient: " +:+ patientId)
       (patients_insert patientId
          (VObject (with_reports patient (push reports report))) s)).
Proof.
  intros Hp Hr. unfold addReport. by rewrite (found_object _ _ _ Hp), Hr.
Qed.

Lemma deleteReport_out_of_range now patientId reportId s patient reports :
  patients s !! patientId = Some (VObject patient) →
  Obj.reports patient = Some reports →
  inRange (parseInt reportId) (length reports) = false →
  deleteReport now patientId reportId s = (Fail IndexOutOfRange, s).
Proof.
  intros Hp Hr Hout. unfold deleteReport.
  rewrite (found_object _ _ _ Hp), Hr, Hout. by destruct (nonNegative _).
Qed.

Lemma deleteReport_in_range now patientId reportId s patient reports i :
  patients s !! patientId = Some (VObject patient) →
  Obj.reports patient = Some reports →
  parseInt reportId = Some i →
  0 ≤ i < Z.of_nat (length reports) →
  deleteReport now patientId reportId s =
    (Ok (),
     logAction now (Obj.assignedDoctor patient)
       ("Deleted report for patient: " +:+ patientId)
       (patients_insert patientId
          (VObject (with_reports patient (splice1 i reports))) s)).
Proof.
  intros Hp Hr Hi Hin. unfold deleteReport.
  rewrite (found_object _ _ _ Hp), Hr, Hi.
  assert (nonNegative (Some i) = true) as -> by (apply Z.leb_le; lia).
  assert (inRange (Some i) (length reports) = true) as ->
    by (apply inRange_true; eauto).
  reflexivity.
Qed.

(** C3. For a stored patient, in every state a run reaches: [addReport]
    leaves the reports with the new report last and one element more;
    [deleteReport] at a position inside the reports removes that element and
    moves the later ones one place down, the rest of the record kept; at any
    other position, or at none, it answers IndexOutOfRange and changes
    nothing. *)
Theorem report_index_laws (now : Timestamp) (patientId : string) (s : State)
    (patient : Obj.t) (reports : list (option string)) :
  reachable s →
  patients s !! patientId = Some (VObject patient) →
  Obj.reports patient = Some reports →
  (∀ r,
     ∃ reports',
       (addReport now patientId r s).1 = Ok reports'
       ∧ (listReports patientId (addReport now patientId r s).2).1
         = Ok (Some reports')
       ∧ patients (addReport now patientId r s).2 !! patientId
           = Some (VObject
                     (Obj.mk (Obj.doctorId patient) (Obj.name patient)
                        (Obj.role patient) (Obj.department patient)
                        (Obj.patientId patient) (Obj.age patient)
                        (Obj.medicalHistory patient)
                        (Obj.currentTreatment patient)
                        (Obj.assignedDoctor patient) (Some reports')))
       ∧ reports' = (reports ++ [r])%list
       ∧ last reports' = Some r
       ∧ length reports' = S (length reports))
  ∧ (∀ reportId i,
       parseInt reportId = Some i →
       0 ≤ i < Z.of_nat (length reports) →
       ∃ reports',
         (deleteReport now patientId reportId s).1 = Ok ()
         ∧ patients (deleteReport now patientId reportId s).2 !! patientId
             = Some (VObject
                       (Obj.mk (Obj.doctorId patient) (Obj.name patient)
                          (Obj.role patient) (Obj.department patient)
                          (Obj.patientId patient) (Obj.age patient)
                          (Obj.medicalHistory patient)
                          (Obj.currentTreatment patient)
                          (Obj.assignedDoctor patient) (Some reports')))
         ∧ S (length reports') = length reports
         ∧ (∀ j, (j < Z.to_nat i)%nat → reports' !! j = reports !! j)
         ∧ (∀ j, (Z.to_nat i ≤ j)%nat → reports' !! j = reports !! S j))
  ∧ (∀ reportId,
       (parseInt reportId = None
        ∨ ∃ i, parseInt reportId = Some i
               ∧ ¬ (0 ≤ i < Z.of_nat (length reports))) →
       deleteReport now patientId reportId s = (Fail IndexOutOfRange, s)).
Proof.
  intros Hreach Hp Hr.
  pose proof (reachable_record_key s patientId patient now Hreach Hp) as Hnow.
  split; [|split].
  - intros r. exists (reports ++ [r])%list.
    rewrite (addReport_present now _ r _ _ _ Hp Hr).
    unfold listReports, patients, push. simpl.
    rewrite lookup_insert_ne by congruence. rewrite lookup_insert_eq. simpl.
    repeat split.
    + apply last_snoc.
    + rewrite length_app. simpl. lia.
  - intros reportId i Hi Hin. exists (splice1 i reports).
    rewrite (deleteReport_in_range now _ _ _ _ _ _ Hp Hr Hi Hin).
    unfold patients. simpl.
    rewrite lookup_insert_ne by congruence. rewrite lookup_insert_eq.
    repeat split.
    + by apply splice1_length.
    + intros j. apply splice1_before.
    + intros j. apply splice1_after.
  - intros reportId Hout.
    apply (deleteReport_out_of_range now _ _ _ _ _ Hp Hr).
    destruct (inRange _ _) eqn:Hin; [|done].
    apply inRange_true in Hin as (i & Hi & Hin).
    destruct Hout as [Hnan|(j & Hj & Hout)]; [congruence|].
    rewrite Hi in Hj. injection Hj as ->. contradiction.
Qed.

Lemma report_index_laws_witness :
  (∃ reports',
     (deleteReport instant3 (uuid_text patientA) "0" example3).1 = Ok ()
     ∧ patients (deleteReport instant3 (uuid_text patientA) "0" example3).2
         !! uuid_text patientA
       = Some (VObject
                 (with_reports
                    (Obj.mk None (Some "P1") None None
                       (Some (uuid_text patientA)) (Some 40) (Some []) None
                       (Some (uuid_text doctorA)) (Some [Some "x-ray clear"]))
                    reports'))
     ∧ S (length reports') = 1%nat
     ∧ (∀ j, (j < Z.to_nat 0)%nat → reports' !! j = [Some "x-ray clear"] !! j)
     ∧ (∀ j, (Z.to_nat 0 ≤ j)%nat → reports' !! j = [Some "x-ray clear"] !! S j))
  ∧ deleteReport instant3 (uuid_text patientA) "1" example3
    = (Fail IndexOutOfRange, example3).
Proof.
  destruct (report_index_laws instant3 (uuid_text patientA) example3
              (Obj.mk None (Some "P1") None None (Some (uuid_text patientA))
                 (Some 40) (Some []) None (Some (uuid_text doctorA))
                 (Some [Some "x-ray clear"]))
              [Some "x-ray clear"] reachable_example3)
    as (_ & Hin & Hout); [vm_compute; reflexivity|reflexivity|].
  split.
  - apply (Hin "0" 0); [reflexivity|simpl; lia].
  - apply Hout. right. exists 1. split; [reflexivity|simpl; lia].
Defined.

(** The example run continued: the report is listed, then deleted. *)
Example example_reports :
  (listReports (uuid_text patientA) example3).1
  = Ok (Some [Some "x-ray clear"])
  ∧ (listReports (uuid_text patientA)
       (deleteReport instant3 (uuid_text patientA) "0" example3).2).1
    = Ok (Some []).
Proof. split; vm_compute; reflexivity. Qed.

(** ** Reassignment *)

Lemma assignDoctor_present now patientId doctorId s patient doctor :
  patients s !! patientId = Some (VObject patient) →
  found (doctors s !! doctorId) = Some doctor →
  assignDoctor now patientId doctorId s =
    (Ok (),
     logAction now (prop Obj.doctorId doctor)
       ("Assigned to patient: " +:+ patientId)
       (patients_insert patientId
          (VObject (with_assignedDoctor patient (prop Obj.doctorId doctor))) s)).
Proof.
  intros Hp Hd. unfold assignDoctor. by rewrite (found_object _ _ _ Hp), Hd.
Qed.

(** C4, at an input where the code departs from it: [doctors.get] reads the
    store the patients are in, so a request that names a patient as the
    doctor is not answered NotFound; it succeeds, and the patient is left
    with no assigned doctor. *)
Theorem assignDoctor_patient_as_doctor :
  prop Obj.doctorId <$> doctors example4 !! uuid_text patientA = Some None
  ∧ prop Obj.assignedDoctor <$> patients example4 !! uuid_text patientA
    = Some (Some (uuid_text doctorA))
  ∧ (assignDoctor instant5 (uuid_text patientA) (uuid_text patientA)
       example4).1 = Ok ()
  ∧ prop Obj.assignedDoctor
    <$> patients
          (assignDoctor instant5 (uuid_text patientA) (uuid_text patientA)
             example4).2 !! uuid_text patientA
    = Some None.
Proof. repeat split; vm_compute; reflexivity. Qed.

(** ** Update *)

(** C7. For a stored patient, in every state a run reaches, and an input
    that passes validation, [updatePatient] succeeds and stores the record
    with name, age, medicalHistory, currentTreatment and assignedDoctor
    taken from the input and every other property, patientId and reports
    among them, as it was; the records under other keys, patients and
    doctors, are the same before and after. *)
Theorem updatePatient_frame (now : Timestamp) (patientId : string)
    (name : option string) (age : option Z) (mh : option (list string))
    (ct ad : option string) (s : State) (patient : Obj.t) :
  reachable s →
  patients s !! patientId = Some (VObject patient) →
  Obj.patientId patient = Some patientId →
  validatePatientInput (PatientDto.mk (Some patientId) name age mh ct ad) = true →
  ∃ patient',
    (updatePatient now patientId name age mh ct ad s).1 = Ok patient'
    ∧ patients (updatePatient now patientId name age mh ct ad s).2 !! patientId
      = Some (VObject patient')
    ∧ patient' = Obj.mk (Obj.doctorId patient) name (Obj.role patient)
                        (Obj.department patient) (Some patientId) age mh ct ad
                        (Obj.reports patient)
    ∧ (∀ other o, other ≠ patientId →
         patients (updatePatient now patientId name age mh ct ad s).2 !! other
         = Some (VObject o)
         ↔ patients s !! other = Some (VObject o))
    ∧ (∀ other o, other ≠ patientId →
         doctors (updatePatient now patientId name age mh ct ad s).2 !! other
         = Some (VObject o)
         ↔ doctors s !! other = Some (VObject o)).
Proof.
  intros Hreach Hp Hpid Hv.
  pose proof (reachable_record_key s patientId patient now Hreach Hp) as Hnow.
  assert (Hframe : ∀ other o v, other ≠ patientId →
            <[timestamp_text now := VString v]>
              (<[patientId := VObject
                   (Obj.mk (Obj.doctorId patient) name (Obj.role patient)
                      (Obj.department patient) (Obj.patientId patient) age mh
                      ct ad (Obj.reports patient))]> (memory100 s)) !! other
            = Some (VObject o)
            ↔ memory100 s !! other = Some (VObject o)).
  { intros other o v Hne. rewrite lookup_insert. case_decide as Hk.
    - split; [discriminate|]. intros Ho. subst other.
      by destruct (reachable_record_key s _ o now Hreach Ho).
    - by rewrite lookup_insert_ne. }
  eexists. rewrite (updatePatient_present now _ _ _ _ _ _ _ _ Hv Hp).
  unfold patients, doctors. simpl.
  split; [reflexivity|]. split.
  { rewrite lookup_insert_ne by congruence. apply lookup_insert_eq. }
  split; [congruence|]. split; intros other o Hne; by apply Hframe.
Qed.

Lemma updatePatient_frame_witness :
  ∃ patient',
    (updatePatient instant4 (uuid_text patientA) (Some "P. One") (Some 41)
       (Some ["asthma"]) (Some "rest") (Some (uuid_text doctorB)) example4).1
    = Ok patient'
    ∧ patients
        (updatePatient instant4 (uuid_text patientA) (Some "P. One") (Some 41)
           (Some ["asthma"]) (Some "rest") (Some (uuid_text doctorB))
           example4).2 !! uuid_text patientA
      = Some (VObject patient')
    ∧ patient' = Obj.mk None (Some "P. One") None None
                   (Some (uuid_text patientA)) (Some 41) (Some ["asthma"])
                   (Some "rest") (Some (uuid_text doctorB))
                   (Some [Some "x-ray clear"])
    ∧ (∀ other o, other ≠ uuid_text patientA →
         patients
           (updatePatient instant4 (uuid_text patientA) (Some "P. One")
              (Some 41) (Some ["asthma"]) (Some "rest")
              (Some (uuid_text doctorB)) example4).2 !! other
         = Some (VObject o)
         ↔ patients example4 !! other = Some (VObject o))
    ∧ (∀ other o, other ≠ uuid_text patientA →
         doctors
           (updatePatient instant4 (uuid_text patientA) (Some "P. One")
              (Some 41) (Some ["asthma"]) (Some "rest")
              (Some (uuid_text doctorB)) example4).2 !! other
         = Some (VObject o)
         ↔ doctors example4 !! other = Some (VObject o)).
Proof.
  apply (updatePatient_frame instant4 (uuid_text patientA) (Some "P. One")
           (Some 41) (Some ["asthma"]) (Some "rest") (Some (uuid_text doctorB))
           example4
           (Obj.mk None (Some "P1") None None (Some (uuid_text patientA))
              (Some 40) (Some []) None (Some (uuid_text doctorA))
              (Some [Some "x-ray clear"])) reachable_example4).
  - vm_compute. reflexivity.
  - reflexivity.
  - reflexivity.
Defined.

(** C10. [updatePatient] checks neither medicalHistory nor
    currentTreatment: for a stored patient, in every state a run reaches,
    and truthy patientId, name, age and assignedDoctor it succeeds whatever
    the two are and stores them as given, absent when they are absent;
    [createPatient] stores the empty sequence for an absent
    medicalHistory. *)
Theorem updatePatient_absent_fields (now : Timestamp) (patientId : string)
    (name : option string) (age : option Z) (ad : option string)
    (s : State) (patient : Obj.t) :
  reachable s →
  patients s !! patientId = Some (VObject patient) →
  truthy patientId = true → truthy name = true → truthy age = true →
  truthy ad = true →
  (∀ mh ct,
     ∃ p,
       (updatePatient now patientId name age mh ct ad s).1 = Ok p
       ∧ patients (updatePatient now patientId name age mh ct ad s).2 !! patientId
         = Some (VObject p)
       ∧ Obj.medicalHistory p = mh
       ∧ Obj.currentTreatment p = ct)
  ∧ (∃ p,
       patients (updatePatient now patientId name age None None ad s).2 !! patientId
       = Some (VObject p)
       ∧ Obj.medicalHistory p = None
       ∧ Obj.currentTreatment p = None)
  ∧ (∀ uuid ct,
       ∃ p,
         (createPatient uuid now name age None ct ad s).1 = Ok p
         ∧ patients (createPatient uuid now name age None ct ad s).2
             !! uuid_text uuid
           = Some (VObject p)
         ∧ Obj.medicalHistory p = Some []).
Proof.
  intros Hreach Hp Hid Hname Hage Had.
  pose proof (reachable_record_key s patientId patient now Hreach Hp) as Hnow.
  assert (Hv : ∀ id mh ct, truthy id = true →
            validatePatientInput (PatientDto.mk (Some id) name age mh ct ad) = true).
  { intros id mh ct Htid. apply validatePatientInput_true. auto. }
  assert (Hupd : ∀ mh ct, ∃ p,
            (updatePatient now patientId name age mh ct ad s).1 = Ok p
            ∧ patients (updatePatient now patientId name age mh ct ad s).2
                !! patientId = Some (VObject p)
            ∧ Obj.medicalHistory p = mh
            ∧ Obj.currentTreatment p = ct).
  { intros mh ct. eexists.
    rewrite (updatePatient_present now _ _ _ _ _ _ _ _ (Hv _ mh ct Hid) Hp).
    unfold patients. simpl. split; [reflexivity|]. split; [|split; reflexivity].
    rewrite lookup_insert_ne by congruence. apply lookup_insert_eq. }
  split; [exact Hupd|]. split.
  - destruct (Hupd None None) as (p & _ & Hstored & Hmh & Hct). eauto.
  - intros uuid ct. eexists.
    rewrite (createPatient_valid _ now _ _ _ _ _ s
               (Hv (uuid_text uuid) None ct (uuid_nonempty uuid))).
    unfold patients. simpl. split; [reflexivity|]. split; [|reflexivity].
    rewrite lookup_insert_ne by (apply not_eq_sym, uuid_timestamp_ne).
    apply lookup_insert_eq.
Qed.

Lemma updatePatient_absent_fields_witness :
  ∃ p,
    patients
      (updatePatient instant4 (uuid_text patientA) (Some "P1") (Some 40)
         None None (Some (uuid_text doctorA)) example3).2 !! uuid_text patientA
    = Some (VObject p)
    ∧ Obj.medicalHistory p = None
    ∧ Obj.currentTreatment p = None.
Proof.
  destruct (updatePatient_absent_fields instant4 (uuid_text patientA)
              (Some "P1") (Some 40) (Some (uuid_text doctorA)) example3
              (Obj.mk None (Some "P1") None None (Some (uuid_text patientA))
                 (Some 40) (Some []) None (Some (uuid_text doctorA))
                 (Some [Some "x-ray clear"])) reachable_example3)
    as (_ & Habsent & _);
    [vm_compute; reflexivity|reflexivity..|exact Habsent].
Defined.

(** ** The audit lines of the shared store *)

Lemma lookup_lines (store : gmap string Value) key line :
  lines store !! key = Some line ↔ store !! key = Some (VString line).
Proof.
  unfold lines. rewrite lookup_omap. destruct (store !! key) as [[o|l]|]; simpl;
    split; intros Heq; try discriminate; congruence.
Qed.

Lemma lookup_lines_None (store : gmap string Value) key :
  lines store !! key = None ↔ ∀ line, store !! key ≠ Some (VString line).
Proof.
  unfold lines. rewrite lookup_omap. destruct (store !! key) as [[o|l]|]; simpl;
    split; intros Hn; try done.
  by destruct (Hn l).
Qed.

Lemma lines_insert_line (store : gmap string Value) key line :
  lines (<[key := VString line]> store) = <[key := line]> (lines store).
Proof. unfold lines. by apply omap_insert_Some. Qed.

Lemma lines_insert_record (store : gmap string Value) key o :
  lines store !! key = None →
  lines (<[key := VObject o]> store) = lines store.
Proof.
  intros Hk. unfold lines in *. rewrite omap_insert_None by done.
  by apply delete_id.
Qed.




Lemma lines_example1 :
  lines (memory100 example1)
  = {[ timestamp_text instant0
       := "11111111-1111-4111-8111-111111111111 - Added new doctor" ]}.
Proof.
  unfold example1. rewrite createDoctor_valid by reflexivity.
  unfold logAction, doctors_insert, auditLogs_insert, init.
  cbn [memory100 snd].
  rewrite lines_insert_line, lines_insert_record.
  - unfold lines. rewrite omap_empty. apply insert_empty.
  - unfold lines. by rewrite omap_empty.
Qed.

(** ** The summary report *)

Lemma foldl_collect store (reportData : list Summary.t) (ks : list string) :
  foldl (collect store) reportData ks
  = (reportData ++ omap (λ key, summary <$> found (store !! key)) ks)%list.
Proof.
  revert reportData. induction ks as [|k ks IH]; intros reportData; simpl.
  - by rewrite app_nil_r.
  - rewrite IH. unfold collect, push.
    destruct (found (store !! k)); simpl; [|reflexivity].
    by rewrite <- app_assoc.
Qed.

Lemma summary_fields (v : Value) :
  summary v
  = match v with
    | VObject o =>
        Summary.mk (Obj.patientId o) (Obj.name o) (Obj.currentTreatment o)
                   (Obj.assignedDoctor o) (Obj.reports o)
    | VString _ => Summary.mk None None None None None
    end.
Proof. by destruct v. Qed.

Lemma generateReports_data now s :
  (generateReports now s).1
  = Ok (omap (λ key,
                (λ v, match v with
                      | VObject o =>
                          Summary.mk (Obj.patientId o) (Obj.name o)
                                     (Obj.currentTreatment o)
                                     (Obj.assignedDoctor o) (Obj.reports o)
                      | VString _ => Summary.mk None None None None None
                      end) <$> found (patients s !! key))
             (keys (patients s))).
Proof.
  unfold generateReports. simpl. f_equal. rewrite foldl_collect. simpl.
  apply list_omap_ext, Forall2_same_length_lookup.
  split; [reflexivity|]. intros i key key' Hkey Hkey'.
  assert (key' = key) as -> by congruence.
  destruct (found (patients s !! key)) as [v|]; [|done].
  simpl. by rewrite summary_fields.
Qed.

Lemma sublist_omap {A B} (f g : A → option B) (l : list A) :
  (∀ a b, g a = Some b → f a = Some b) →
  sublist (omap g l) (omap f l).
Proof.
  intros Hfg. induction l as [|a l IH]; csimpl; [constructor|].
  destruct (g a) as [b|] eqn:Hg.
  - rewrite (Hfg _ _ Hg). by constructor.
  - destruct (f a); [by constructor|assumption].
Qed.

(** C8 (as amended). [generateReports] always succeeds.  Its answer holds,
    in the order of the store's keys, the projection (patientId, name,
    currentTreatment, assignedDoctor, reports) of every patient stored
    under its patientId.  Nothing but the entry of the current instant
    changes; there the line of [admin] is written, which is one more audit
    line, the others kept, when nothing is stored under that instant. *)
Theorem generateReports_summaries (now : Timestamp) (s : State) :
  ∃ reportData,
    (generateReports now s).1 = Ok reportData
    ∧ sublist
        (omap (λ key,
                 match patients s !! key with
                 | Some (VObject o) =>
                     if bool_decide (Obj.patientId o = Some key)
                     then Some (Summary.mk (Obj.patientId o) (Obj.name o)
                                  (Obj.currentTreatment o)
                                  (Obj.assignedDoctor o) (Obj.reports o))
                     else None
                 | _ => None
                 end)
              (keys (patients s)))
        reportData
    ∧ (∀ key o,
         patients s !! key = Some (VObject o) →
         Obj.patientId o = Some key →
         Summary.mk (Some key) (Obj.name o) (Obj.currentTreatment o)
                    (Obj.assignedDoctor o) (Obj.reports o) ∈ reportData)
    ∧ (∀ key, key ≠ timestamp_text now →
         patients (generateReports now s).2 !! key = patients s !! key)
    ∧ auditLogs (generateReports now s).2 !! timestamp_text now
      = Some (VString "admin - Generated patient reports")
    ∧ (auditLogs s !! timestamp_text now = None →
       size (lines (auditLogs (generateReports now s).2))
       = S (size (lines (auditLogs s)))
       ∧ ∀ key old, lines (auditLogs s) !! key = Some old →
                    lines (auditLogs (generateReports now s).2) !! key
                    = Some old).
Proof.
  eexists. split; [apply generateReports_data|].
  split; [|split; [|split; [|split]]].
  - apply sublist_omap. intros key summary.
    destruct (patients s !! key) as [[o|line]|] eqn:Hkey; try discriminate.
    case_bool_decide; [|discriminate]. by intros [= <-].
  - intros key o Hkey Hid. apply list_elem_of_omap.
    exists key. split.
    + apply keysBy_once. eauto.
    + rewrite (found_object _ _ _ Hkey). simpl. by rewrite Hid.
  - intros key Hne. unfold patients. simpl. by rewrite lookup_insert_ne.
  - unfold auditLogs. simpl. apply lookup_insert_eq.
  - intros Hfresh. unfold auditLogs in *. simpl. rewrite lines_insert_line.
    apply audit_insert_fresh. apply lookup_lines_None. congruence.
Qed.

Lemma generateReports_summaries_witness :
  size (lines (auditLogs (generateReports instant5 example3).2))
  = S (size (lines (auditLogs example3))).
Proof.
  destruct (generateReports_summaries instant5 example3)
    as (reportData & _ & _ & _ & _ & _ & Hfresh).
  apply Hfresh. vm_compute. reflexivity.
Defined.

(** C8 as stated fails: a report generated in the instant of an earlier
    entry replaces that entry, and the store holds no more audit lines than
    before. *)
Lemma generateReports_same_instant :
  ¬ (∀ now s,
       size (lines (auditLogs (generateReports now s).2))
       = S (size (lines (auditLogs s))))
  ∧ auditLogs example1 !! timestamp_text instant0
    = Some (VString "11111111-1111-4111-8111-111111111111 - Added new doctor")
  ∧ lines (auditLogs (generateReports instant0 example1).2)
    = {[ timestamp_text instant0 := "admin - Generated patient reports" ]}.
Proof.
  split; [|split].
  - intros Hclaim. specialize (Hclaim instant0 example1).
    vm_compute in Hclaim. discriminate.
  - vm_compute. reflexivity.
  - unfold generateReports, logAction, auditLogs_insert, auditLogs.
    cbn [memory100 snd].
    rewrite lines_insert_line, lines_example1.
    rewrite <- !insert_empty, insert_insert_eq. reflexivity.
Qed.

(** ** The audit line of each route *)












End IndexFacts.

(** * The variant of backup.ts *)

Module BackupFacts.
Import Backup.

Section WithPrincipal.
Context `{Countable Principal}.
Variable fromText : string → option Principal.
Variable toText : Principal → string.

Lemma backup_found_object (store : gmap (string + Principal) (Value Principal))
    key o :
  store !! key = Some (VObject o) → found (store !! key) = Some (VObject o).
Proof. by intros ->. Qed.

(** ** What a run leaves in the store *)








(** ** The delete route *)




Lemma deletePatient_allowed now patientId doctorId principal doctor user
    (s : State Principal) :
  fromText doctorId = Some principal →
  doctors s !! inr principal = Some (VObject doctor) →
  Obj.role doctor = Some "FullAccess" →
  Obj.doctorId doctor = Some user →
  deletePatient fromText toText now patientId doctorId s
  = (Ok (),
     logAction toText now user ("Deleted patient record: " +:+ patientId)
       (patients_remove patientId s)).
Proof.
  intros Hid Hd Hrole Huser. unfold deletePatient.
  rewrite Hid, (backup_found_object _ _ _ Hd). simpl.
  by rewrite bool_decide_eq_true_2, Huser.
Qed.



Lemma addDoctor_valid now doctorId principal name role department
    (s : State Principal) :
  doctorId ≠ "" → fromText doctorId = Some principal →
  truthy name = true → truthy role = true → truthy department = true →
  let newDoctor :=
    Obj.mk _ (Some principal) name role department
           None None None None None None in
  addDoctor fromText toText now (Some doctorId) name role department s
  = (Ok (),
     logAction toText now principal "Added new doctor"
       (doctors_insert principal (VObject newDoctor) s)).
Proof.
  intros Hne Hid Hn Hr Hd. unfold addDoctor.
  apply truthy_string_nonempty in Hne.
  assert (truthy (Some doctorId) = true) as -> by exact Hne.
  rewrite Hn, Hr, Hd. simpl. by rewrite Hid.
Qed.

Lemma addPatient_valid now id ad principal name age mh ct
    (s : State Principal) :
  validatePatientInput (PatientDto.mk (Some id) name age mh ct (Some ad)) = true →
  fromText ad = Some principal →
  let newPatient :=
    Obj.mk _ None name None None (Some id) age mh ct (Some principal)
           (Some []) in
  addPatient fromText toText now (Some id) name age mh ct (Some ad) s
  = (Ok (),
     logAction toText now principal ("Added patient record: " +:+ id)
       (patients_insert id (VObject newPatient) s)).
Proof. intros Hv Had. unfold addPatient. rewrite Hv. simpl. by rewrite Had. Qed.




End WithPrincipal.

(** ** Under the principal library *)






(** The doctor with full access deletes the patient, who is then not found;
    the read-only doctor is refused. *)
Example example_delete :
  (deletePatient Principal.fromText Principal.toText instant3 "p1" "aaaaa-aa"
     example3).1 = Ok ()
  ∧ fetch
      (patients
         (deletePatient Principal.fromText Principal.toText instant3 "p1"
            "aaaaa-aa" example3).2) (inl "p1")
    = Fail NotFound
  ∧ (deletePatient Principal.fromText Principal.toText instant3 "p1"
       "2vxsx-fae" example3).1 = Fail PermissionDenied.
Proof. repeat split; vm_compute; reflexivity. Qed.

End BackupFacts.

(** * Across the two variants *)






(** * Further properties of src/src/backend/index.ts *)

Module IndexRuns.
Import Index.

(** X1. A route of index.ts that answers an error leaves the three stores
    exactly as they were. *)
Theorem error_leaves_stores (s : State) (e : Error) :
  (∀ uuid now name role department,
     (createDoctor uuid now name role department s).1 = Fail e →
     (createDoctor uuid now name role department s).2 = s)
  ∧ (∀ uuid now name age mh ct ad,
       (createPatient uuid now name age mh ct ad s).1 = Fail e →
       (createPatient uuid now name age mh ct ad s).2 = s)
  ∧ (∀ now patientId name age mh ct ad,
       (updatePatient now patientId name age mh ct ad s).1 = Fail e →
       (updatePatient now patientId name age mh ct ad s).2 = s)
  ∧ (∀ now patientId report,
       (addReport now patientId report s).1 = Fail e →
       (addReport now patientId report s).2 = s)
  ∧ (∀ now patientId reportId,
       (deleteReport now patientId reportId s).1 = Fail e →
       (deleteReport now patientId reportId s).2 = s)
  ∧ (∀ now patientId doctorId,
       (assignDoctor now patientId doctorId s).1 = Fail e →
       (assignDoctor now patientId doctorId s).2 = s).
Proof.
  repeat apply conj.
  - intros uuid now name role department. unfold createDoctor.
    destruct (negb (truthy name) || negb (truthy role) || negb (truthy department));
      simpl; [reflexivity|discriminate].
  - intros uuid now name age mh ct ad. unfold createPatient.
    destruct (negb (validatePatientInput _)); simpl; [reflexivity|discriminate].
  - intros now patientId name age mh ct ad. unfold updatePatient.
    destruct (negb (validatePatientInput _)); simpl; [reflexivity|].
    destruct (found (patients s !! patientId)) as [[patient|line]|]; simpl;
      first [discriminate|reflexivity].
  - intros now patientId report. unfold addReport.
    destruct (found (patients s !! patientId)) as [[patient|line]|]; simpl;
      try reflexivity.
    destruct (Obj.reports patient); simpl; [discriminate|reflexivity].
  - intros now patientId reportId. unfold deleteReport.
    destruct (found (patients s !! patientId)) as [[patient|line]|]; simpl;
      try reflexivity; destruct (nonNegative _); simpl; try reflexivity.
    destruct (Obj.reports patient); simpl; [|reflexivity].
    destruct (inRange _ _); simpl; [discriminate|reflexivity].
  - intros now patientId doctorId. unfold assignDoctor.
    destruct (found (patients s !! patientId)) as [[patient|line]|],
      (found (doctors s !! doctorId)); simpl;
      first [discriminate|reflexivity].
Qed.

Lemma error_leaves_stores_witness :
  (assignDoctor instant7 (uuid_text patientA) (uuid_text patientB) example3).2
  = example3.
Proof.
  apply (error_leaves_stores example3 NotFound). reflexivity.
Defined.

(** X2. In every state a run of index.ts reaches, what is stored under a
    key is a record under the text of a UUID or a non-empty audit line
    under the text of an instant; a record is a doctor stored under its
    doctorId with a non-empty name, role and department, or a patient
    stored under its patientId with a non-empty name, a non-zero age and a
    list of reports, and never both. *)
Theorem reachable_records_valid (s : State) (key : string) (v : Value) :
  reachable s →
  memory100 s !! key = Some v →
  match v with
  | VObject o =>
      is_uuid key = true
      ∧ (Obj.doctorId o = Some key ∧ Obj.patientId o = None
         ∧ truthy (Obj.name o) = true ∧ truthy (Obj.role o) = true
         ∧ truthy (Obj.department o) = true
         ∨ Obj.patientId o = Some key ∧ Obj.doctorId o = None
           ∧ truthy (Obj.name o) = true ∧ truthy (Obj.age o) = true
           ∧ is_Some (Obj.reports o))
  | VString line => is_timestamp key = true ∧ line ≠ ""
  end.
Proof.
  intros Hreach Hkey.
  pose proof (IndexFacts.reachable_ok s Hreach key v Hkey) as Hok.
  destruct v as [o|line]; [|exact Hok].
  destruct Hok as (Huuid & Hdoctor & Hpatient & [Hd|Hp]).
  - split; [assumption|]. left. by apply Hdoctor.
  - split; [assumption|]. right. by apply Hpatient.
Qed.

Lemma reachable_records_valid_witness :
  is_timestamp (timestamp_text instant1) = true
  ∧ "11111111-1111-4111-8111-111111111111 - Added patient record: aaaaaaaa-aaaa-4aaa-aaaa-aaaaaaaaaaaa"
    ≠ "".
Proof.
  apply (reachable_records_valid example4 (timestamp_text instant1)
           (VString
              "11111111-1111-4111-8111-111111111111 - Added patient record: aaaaaaaa-aaaa-4aaa-aaaa-aaaaaaaaaaaa")
           IndexFacts.reachable_example4).
  vm_compute. reflexivity.
Defined.

Lemma step_keys s s' : step s s' → dom (memory100 s) ⊆ dom (memory100 s').
Proof.
  intros Hstep. destruct Hstep.
  - unfold createDoctor.
    destruct (negb (truthy name) || negb (truthy role) || negb (truthy department));
      simpl; [done|]. rewrite !dom_insert_L. set_solver.
  - unfold createPatient. destruct (negb (validatePatientInput _)); simpl;
      [done|]. rewrite !dom_insert_L. set_solver.
  - unfold updatePatient. destruct (negb (validatePatientInput _)); simpl;
      [done|].
    destruct (found (patients s !! patientId)) as [[patient|line]|]; simpl;
      [|done..].
    rewrite !dom_insert_L. set_solver.
  - unfold addReport.
    destruct (found (patients s !! patientId)) as [[patient|line]|]; simpl;
      [|done..].
    destruct (Obj.reports patient); simpl; [|done].
    rewrite !dom_insert_L. set_solver.
  - unfold deleteReport.
    destruct (found (patients s !! patientId)) as [[patient|line]|]; simpl;
      try done; destruct (nonNegative _); simpl; try done.
    destruct (Obj.reports patient); simpl; [|done].
    destruct (inRange _ _); simpl; [|done].
    rewrite !dom_insert_L. set_solver.
  - unfold assignDoctor.
    destruct (found (patients s !! patientId)) as [[patient|line]|],
      (found (doctors s !! doctorId)); simpl; try done.
    rewrite !dom_insert_L. set_solver.
  - unfold generateReports. simpl. rewrite dom_insert_L. set_solver.
  - done.
Qed.

(** X3. No route of index.ts removes anything: along any run of requests
    the doctors, the patients and the audit timestamps that are stored stay
    stored. *)
Theorem run_keeps_keys (s s' : State) :
  rtc step s s' →
  (∀ key, is_Some (doctors s !! key) → is_Some (doctors s' !! key))
  ∧ (∀ key, is_Some (patients s !! key) → is_Some (patients s' !! key))
  ∧ (∀ key, is_Some (auditLogs s !! key) → is_Some (auditLogs s' !! key)).
Proof.
  intros Hrun.
  assert (Hdom : dom (memory100 s) ⊆ dom (memory100 s')).
  { induction Hrun as [|s1 s2 s3 Hstep _ IH]; [done|].
    pose proof (step_keys _ _ Hstep). set_solver. }
  unfold doctors, patients, auditLogs.
  repeat split; intros key; rewrite <- !elem_of_dom; set_solver.
Qed.

Lemma run_keeps_keys_witness :
  is_Some (patients example4 !! uuid_text patientA).
Proof.
  destruct (run_keeps_keys example2 example4) as (_ & Hpatients & _).
  - eapply rtc_l; [apply step_addReport|].
    eapply rtc_l; [apply step_createDoctor|]. apply rtc_refl.
  - apply Hpatients. vm_compute. eauto.
Defined.

(** X4. Create-then-get for patients: for an input that passes validation
    [createPatient] answers the record with the generated id, no reports
    and medicalHistory [[]] when absent; [getPatient] on that id answers
    the same record and [listReports] the empty list; what is stored under
    keys other than that id and the current instant is unchanged. *)
Theorem createPatient_getPatient (uuid : Uuid) (now : Timestamp)
    (name : option string) (age : option Z) (mh : option (list string))
    (ct ad : option string) (s : State) :
  validatePatientInput (PatientDto.mk (Some (uuid_text uuid)) name age mh ct ad)
  = true →
  ∃ p s',
    createPatient uuid now name age mh ct ad s = (Ok p, s')
    ∧ p = Obj.mk None name None None (Some (uuid_text uuid)) age
                 (Some (default [] mh)) ct ad (Some [])
    ∧ getPatient (uuid_text uuid) s' = (Ok (VObject p), s')
    ∧ listReports (uuid_text uuid) s' = (Ok (Some []), s')
    ∧ (∀ other, other ≠ uuid_text uuid → other ≠ timestamp_text now →
         memory100 s' !! other = memory100 s !! other).
Proof.
  intros Hv. do 2 eexists.
  split; [by apply IndexFacts.createPatient_valid|].
  split; [reflexivity|].
  assert (Hstored :
            ∀ v line,
              <[timestamp_text now := VString line]>
                (<[uuid_text uuid := v]> (memory100 s)) !! uuid_text uuid
              = Some v).
  { intros v line.
    rewrite lookup_insert_ne by (apply not_eq_sym, uuid_timestamp_ne).
    apply lookup_insert_eq. }
  split; [|split].
  - unfold getPatient, fetch, patients. simpl. by rewrite Hstored.
  - unfold listReports, patients. simpl. by rewrite Hstored.
  - intros other Hne Hnow. simpl. by rewrite !lookup_insert_ne.
Qed.

Lemma createPatient_getPatient_witness :
  ∃ p s',
    createPatient patientB instant4 (Some "P2") (Some 7) None (Some "rest")
      (Some "nobody") example4 = (Ok p, s')
    ∧ p = Obj.mk None (Some "P2") None None (Some (uuid_text patientB))
                 (Some 7) (Some []) (Some "rest") (Some "nobody") (Some [])
    ∧ getPatient (uuid_text patientB) s' = (Ok (VObject p), s')
    ∧ listReports (uuid_text patientB) s' = (Ok (Some []), s')
    ∧ (∀ other, other ≠ uuid_text patientB → other ≠ timestamp_text instant4 →
         memory100 s' !! other = memory100 example4 !! other).
Proof.
  apply (createPatient_getPatient patientB instant4 (Some "P2") (Some 7) None
           (Some "rest") (Some "nobody") example4).
  reflexivity.
Defined.

(** X5. In every state a run reaches, [addReport] for a stored patient
    followed by [deleteReport] at the position of the report just added
    succeeds and leaves the record of the patient, and everything else but
    the entries of the two instants, as it was before the two requests. *)
Theorem addReport_deleteReport_last (now1 now2 : Timestamp)
    (patientId reportId : string) (r : option string) (s : State)
    (patient : Obj.t) (reports : list (option string)) :
  reachable s →
  patients s !! patientId = Some (VObject patient) →
  Obj.reports patient = Some reports →
  parseInt reportId = Some (Z.of_nat (length reports)) →
  (addReport now1 patientId r s).1 = Ok (reports ++ [r])%list
  ∧ (deleteReport now2 patientId reportId (addReport now1 patientId r s).2).1
    = Ok ()
  ∧ patients
      (deleteReport now2 patientId reportId (addReport now1 patientId r s).2).2
      !! patientId
    = Some (VObject patient)
  ∧ (∀ key, key ≠ timestamp_text now1 → key ≠ timestamp_text now2 →
       memory100
         (deleteReport now2 patientId reportId
            (addReport now1 patientId r s).2).2 !! key
       = memory100 s !! key).
Proof.
  intros Hreach Hp Hr Hi.
  pose proof (λ now, IndexFacts.reachable_record_key s patientId patient now
                       Hreach Hp) as Hnow.
  rewrite (IndexFacts.addReport_present now1 _ r _ _ _ Hp Hr).
  unfold push. simpl. split; [reflexivity|].
  set (patient1 := with_reports patient (reports ++ [r])%list).
  set (s1 := logAction now1 _ _ _).
  assert (Hp1 : patients s1 !! patientId = Some (VObject patient1)).
  { unfold s1, patients. simpl.
    rewrite lookup_insert_ne by (specialize (Hnow now1); congruence).
    apply lookup_insert_eq. }
  assert (Hin : 0 ≤ Z.of_nat (length reports)
                < Z.of_nat (length (reports ++ [r])%list)).
  { rewrite length_app. simpl. lia. }
  rewrite (IndexFacts.deleteReport_in_range now2 _ _ _ patient1
             (reports ++ [r])%list _ Hp1 eq_refl Hi Hin).
  simpl. split; [reflexivity|].
  assert (Hback : with_reports patient1
                    (splice1 (Z.of_nat (length reports)) (reports ++ [r])%list)
                  = patient).
  { unfold splice1, with_reports, patient1. simpl.
    rewrite Nat2Z.id.
    assert (delete (length reports) (reports ++ [r])%list = reports) as ->.
    { rewrite delete_middle. by rewrite app_nil_r. }
    destruct patient. simpl in *. by rewrite Hr. }
  rewrite Hback. split.
  - unfold patients. simpl.
    rewrite lookup_insert_ne by (specialize (Hnow now2); congruence).
    apply lookup_insert_eq.
  - intros key Hne1 Hne2. rewrite lookup_insert_ne by congruence.
    rewrite lookup_insert. case_decide as Hk.
    + subst key. symmetry. exact Hp.
    + unfold s1. simpl. rewrite lookup_insert_ne by congruence.
      by rewrite lookup_insert_ne.
Qed.

Lemma addReport_deleteReport_last_witness :
  patients
    (deleteReport instant5 (uuid_text patientA) "1"
       (addReport instant4 (uuid_text patientA) (Some "blood test")
          example4).2).2 !! uuid_text patientA
  = patients example4 !! uuid_text patientA.
Proof.
  destruct (addReport_deleteReport_last instant4 instant5 (uuid_text patientA)
              "1" (Some "blood test") example4
              (Obj.mk None (Some "P1") None None (Some (uuid_text patientA))
                 (Some 40) (Some []) None (Some (uuid_text doctorA))
                 (Some [Some "x-ray clear"]))
              [Some "x-ray clear"] IndexFacts.reachable_example4)
    as (_ & _ & Hback & _);
    [vm_compute; reflexivity|reflexivity..|].
  rewrite Hback. vm_compute. reflexivity.
Defined.

(** X6. In every state a run reaches, repeating an [updatePatient] of a
    stored patient with the same input, at any later instant, gives the
    answer of the first and leaves everything but the entry of the second
    instant as the first left it. *)
Theorem updatePatient_twice (now1 now2 : Timestamp) (patientId : string)
    (name : option string) (age : option Z) (mh : option (list string))
    (ct ad : option string) (s : State) (patient : Obj.t) :
  reachable s →
  patients s !! patientId = Some (VObject patient) →
  validatePatientInput (PatientDto.mk (Some patientId) name age mh ct ad) = true →
  ∃ p,
    (updatePatient now1 patientId name age mh ct ad s).1 = Ok p
    ∧ (updatePatient now2 patientId name age mh ct ad
         (updatePatient now1 patientId name age mh ct ad s).2).1 = Ok p
    ∧ (∀ key, key ≠ timestamp_text now2 →
         memory100
           (updatePatient now2 patientId name age mh ct ad
              (updatePatient now1 patientId name age mh ct ad s).2).2 !! key
         = memory100 (updatePatient now1 patientId name age mh ct ad s).2
             !! key).
Proof.
  intros Hreach Hp Hv.
  pose proof (λ now, IndexFacts.reachable_record_key s patientId patient now
                       Hreach Hp) as Hnow.
  eexists.
  rewrite (IndexFacts.updatePatient_present now1 _ _ _ _ _ _ _ _ Hv Hp).
  simpl. split; [reflexivity|].
  set (patient1 := Obj.mk _ _ _ _ _ _ _ _ _ _).
  set (s1 := logAction now1 _ _ _).
  assert (Hp1 : patients s1 !! patientId = Some (VObject patient1)).
  { unfold s1, patients. simpl.
    rewrite lookup_insert_ne by (specialize (Hnow now1); congruence).
    apply lookup_insert_eq. }
  rewrite (IndexFacts.updatePatient_present now2 _ _ _ _ _ _ _ _ Hv Hp1).
  simpl. split; [reflexivity|].
  intros key Hne. rewrite lookup_insert_ne by congruence.
  rewrite lookup_insert. case_decide as Hk; [|reflexivity].
  subst key. symmetry. exact Hp1.
Qed.

Lemma updatePatient_twice_witness :
  ∃ p,
    (updatePatient instant4 (uuid_text patientA) (Some "P. One") (Some 41)
       None None (Some (uuid_text doctorB)) example4).1 = Ok p
    ∧ (updatePatient instant5 (uuid_text patientA) (Some "P. One") (Some 41)
         None None (Some (uuid_text doctorB))
         (updatePatient instant4 (uuid_text patientA) (Some "P. One")
            (Some 41) None None (Some (uuid_text doctorB)) example4).2).1
      = Ok p.
Proof.
  destruct (updatePatient_twice instant4 instant5 (uuid_text patientA)
              (Some "P. One") (Some 41) None None (Some (uuid_text doctorB))
              example4
              (Obj.mk None (Some "P1") None None (Some (uuid_text patientA))
                 (Some 40) (Some []) None (Some (uuid_text doctorA))
                 (Some [Some "x-ray clear"])) IndexFacts.reachable_example4)
    as (p & Hfirst & Hsecond & _);
    [vm_compute; reflexivity|reflexivity|].
  exists p. by split.
Defined.

Lemma omap_total {A B} (f : A → option B) (g : A → B) (l : list A) :
  (∀ a, a ∈ l → f a = Some (g a)) → omap f l = g <$> l.
Proof.
  induction l as [|a l IH]; intros Hfg; csimpl; [reflexivity|].
  rewrite (Hfg a) by left. rewrite IH; [reflexivity|].
  intros b Hb. apply Hfg. by right.
Qed.

(** X7. In every state a run reaches, the reportData of [generateReports]
    has one element for every key of the store of memory id 100, in the
    order of the keys: the projection of the record for a key that holds a
    record, patient or doctor, and an element with no property for a key
    that holds an audit line. *)
Theorem generateReports_each_key (now : Timestamp) (s : State) :
  reachable s →
  ∃ reportData,
    (generateReports now s).1 = Ok reportData
    ∧ length reportData = size (memory100 s)
    ∧ reportData
      = (λ key,
           match patients s !! key with
           | Some (VObject o) =>
               Summary.mk (Obj.patientId o) (Obj.name o)
                          (Obj.currentTreatment o) (Obj.assignedDoctor o)
                          (Obj.reports o)
           | _ => Summary.mk None None None None None
           end) <$> keys (patients s).
Proof.
  intros Hreach. eexists. split; [apply IndexFacts.generateReports_data|].
  assert (Hall :
    omap (λ key,
            (λ v, match v with
                  | VObject o =>
                      Summary.mk (Obj.patientId o) (Obj.name o)
                                 (Obj.currentTreatment o)
                                 (Obj.assignedDoctor o) (Obj.reports o)
                  | VString _ => Summary.mk None None None None None
                  end) <$> found (patients s !! key))
         (keys (patients s))
    = (λ key,
         match patients s !! key with
         | Some (VObject o) =>
             Summary.mk (Obj.patientId o) (Obj.name o)
                        (Obj.currentTreatment o) (Obj.assignedDoctor o)
                        (Obj.reports o)
         | _ => Summary.mk None None None None None
         end) <$> keys (patients s)).
  { apply omap_total. intros key Hkey.
    apply keysBy_once in Hkey as [v Hv]. rewrite Hv.
    assert (Hfound : found (Some v) = Some v).
    { apply found_Some. split; [reflexivity|].
      by apply (IndexFacts.reachable_truthy s key). }
    rewrite Hfound. by destruct v. }
  rewrite Hall. split; [|reflexivity].
  rewrite length_fmap. apply length_keysBy.
Qed.

Lemma generateReports_each_key_witness :
  ∃ reportData,
    (generateReports instant5 example3).1 = Ok reportData
    ∧ length reportData = 5%nat.
Proof.
  destruct (generateReports_each_key instant5 example3
              IndexFacts.reachable_example3)
    as (reportData & Hdata & Hlength & _).
  exists reportData. split; [exact Hdata|].
  rewrite Hlength. vm_compute. reflexivity.
Defined.

(** X8. In every state a run reaches, [assignDoctor] of a stored doctor to
    a stored patient succeeds and leaves the patient with that doctorId as
    assignedDoctor and every other property as it was; a following
    [addReport] for the patient succeeds and its audit line has the newly
    assigned doctorId as actor. *)
Theorem assignDoctor_then_addReport (now1 now2 : Timestamp)
    (patientId doctorId : string) (r : option string) (s : State)
    (patient doctor : Obj.t) (reports : list (option string)) :
  reachable s →
  patients s !! patientId = Some (VObject patient) →
  Obj.reports patient = Some reports →
  doctors s !! doctorId = Some (VObject doctor) →
  is_Some (Obj.doctorId doctor) →
  (assignDoctor now1 patientId doctorId s).1 = Ok ()
  ∧ patients (assignDoctor now1 patientId doctorId s).2 !! patientId
    = Some (VObject
              (Obj.mk (Obj.doctorId patient) (Obj.name patient)
                 (Obj.role patient) (Obj.department patient)
                 (Obj.patientId patient) (Obj.age patient)
                 (Obj.medicalHistory patient) (Obj.currentTreatment patient)
                 (Some doctorId) (Some reports)))
  ∧ (addReport now2 patientId r (assignDoctor now1 patientId doctorId s).2).1
    = Ok (reports ++ [r])%list
  ∧ auditLogs
      (addReport now2 patientId r (assignDoctor now1 patientId doctorId s).2).2
      !! timestamp_text now2
    = Some (VString
              (auditLine doctorId ("Added report for patient: " +:+ patientId))).
Proof.
  intros Hreach Hp Hr Hd Hsome.
  pose proof (IndexFacts.reachable_record_key s patientId patient now1
                Hreach Hp) as Hnow.
  assert (Hid : Obj.doctorId doctor = Some doctorId).
  { destruct (IndexFacts.reachable_ok s Hreach _ _ Hd) as (_ & Hkey & _).
    by destruct (Hkey Hsome). }
  rewrite (IndexFacts.assignDoctor_present now1 _ _ _ _ _ Hp
             (IndexFacts.found_object _ _ _ Hd)).
  simpl. rewrite Hid. split; [reflexivity|].
  set (s1 := logAction now1 _ _ _).
  assert (Hp1 : patients s1 !! patientId
                = Some (VObject
                          (Obj.mk (Obj.doctorId patient) (Obj.name patient)
                             (Obj.role patient) (Obj.department patient)
                             (Obj.patientId patient) (Obj.age patient)
                             (Obj.medicalHistory patient)
                             (Obj.currentTreatment patient)
                             (Some doctorId) (Some reports)))).
  { unfold s1, patients. simpl. rewrite lookup_insert_ne by congruence.
    rewrite lookup_insert_eq. unfold with_assignedDoctor. by rewrite Hr. }
  split; [exact Hp1|].
  rewrite (IndexFacts.addReport_present now2 _ r _ _ _ Hp1 eq_refl).
  simpl. split; [reflexivity|].
  unfold auditLogs. simpl. apply lookup_insert_eq.
Qed.

Lemma assignDoctor_then_addReport_witness :
  (assignDoctor instant4 (uuid_text patientA) (uuid_text doctorB) example4).1
  = Ok ()
  ∧ auditLogs
      (addReport instant5 (uuid_text patientA) (Some "blood test")
         (assignDoctor instant4 (uuid_text patientA) (uuid_text doctorB)
            example4).2).2 !! timestamp_text instant5
    = Some (VString
              (auditLine (uuid_text doctorB)
                 ("Added report for patient: " +:+ uuid_text patientA))).
Proof.
  destruct (assignDoctor_then_addReport instant4 instant5 (uuid_text patientA)
              (uuid_text doctorB) (Some "blood test") example4
              (Obj.mk None (Some "P1") None None (Some (uuid_text patientA))
                 (Some 40) (Some []) None (Some (uuid_text doctorA))
                 (Some [Some "x-ray clear"]))
              (Obj.mk (Some (uuid_text doctorB)) (Some "Dr. B")
                 (Some "ReadOnly") (Some "Neuro")
                 None None None None None None)
              [Some "x-ray clear"] IndexFacts.reachable_example4)
    as (Hok & _ & _ & Hline);
    [vm_compute; reflexivity|reflexivity|vm_compute; reflexivity|by eexists|].
  split; [exact Hok|exact Hline].
Defined.

(** X16. [updatePatient] does not look at what kind of record it finds: in
    every state a run reaches, at the id of a stored doctor and an input
    that passes validation it succeeds, and [getDoctor] then answers the
    doctor with the name of the input, its role and department kept, and
    the age, medicalHistory, currentTreatment and assignedDoctor of the
    input added. *)
Theorem updatePatient_on_doctor (now : Timestamp) (doctorId : string)
    (name : option string) (age : option Z) (mh : option (list string))
    (ct ad : option string) (s : State) (doctor : Obj.t) :
  reachable s →
  doctors s !! doctorId = Some (VObject doctor) →
  Obj.doctorId doctor = Some doctorId →
  validatePatientInput (PatientDto.mk (Some doctorId) name age mh ct ad) = true →
  (updatePatient now doctorId name age mh ct ad s).1
  = Ok (Obj.mk (Some doctorId) name (Obj.role doctor) (Obj.department doctor)
          None age mh ct ad (Obj.reports doctor))
  ∧ (getDoctor doctorId (updatePatient now doctorId name age mh ct ad s).2).1
    = Ok (VObject
            (Obj.mk (Some doctorId) name (Obj.role doctor)
               (Obj.department doctor) None age mh ct ad
               (Obj.reports doctor))).
Proof.
  intros Hreach Hd Hid Hv.
  pose proof (IndexFacts.reachable_record_key s doctorId doctor now
                Hreach Hd) as Hnow.
  destruct (IndexFacts.reachable_ok s Hreach _ _ Hd)
    as (_ & Hdoctor & _).
  destruct (Hdoctor ltac:(by eexists)) as (_ & Hnone & _).
  rewrite (IndexFacts.updatePatient_present now _ _ _ _ _ _ _ _ Hv Hd).
  simpl. rewrite Hid, Hnone. split; [reflexivity|].
  unfold getDoctor, fetch, doctors. simpl.
  rewrite lookup_insert_ne by congruence. by rewrite lookup_insert_eq.
Qed.

Lemma updatePatient_on_doctor_witness :
  (getDoctor (uuid_text doctorB)
     (updatePatient instant4 (uuid_text doctorB) (Some "Mallory") (Some 1)
        None None (Some "nobody") example4).2).1
  = Ok (VObject
          (Obj.mk (Some (uuid_text doctorB)) (Some "Mallory")
             (Some "ReadOnly") (Some "Neuro") None (Some 1) None None
             (Some "nobody") None)).
Proof.
  destruct (updatePatient_on_doctor instant4 (uuid_text doctorB)
              (Some "Mallory") (Some 1) None None (Some "nobody") example4
              (Obj.mk (Some (uuid_text doctorB)) (Some "Dr. B")
                 (Some "ReadOnly") (Some "Neuro")
                 None None None None None None)
              IndexFacts.reachable_example4)
    as [_ Hget]; [vm_compute; reflexivity|reflexivity..|].
  exact Hget.
Defined.

(** X17. [deleteReport] reads the position with [Number.parseInt]: a
    reportId with leading white space, a sign, a hexadecimal prefix or
    text after the digits is taken for the number it starts with, and one
    with no leading number is answered IndexOutOfRange. *)
Theorem deleteReport_lenient_position :
  (∀ reportId,
     reportId ∈ [" 0"; "+0"; "-0"; "0x0"; "0abc"; "0.9"; "00"] →
     (deleteReport instant4 (uuid_text patientA) reportId example3).1 = Ok ()
     ∧ (listReports (uuid_text patientA)
          (deleteReport instant4 (uuid_text patientA) reportId example3).2).1
       = Ok (Some []))
  ∧ (∀ reportId,
       reportId ∈ [""; "abc"; "-1"; "1"; "x0"; "0x"] →
       deleteReport instant4 (uuid_text patientA) reportId example3
       = (Fail IndexOutOfRange, example3)).
Proof.
  split; intros reportId Hin;
    repeat (apply elem_of_cons in Hin as [->|Hin];
            [try split; vm_compute; reflexivity|]);
    by apply elem_of_nil in Hin.
Qed.

Lemma deleteReport_lenient_position_witness :
  (deleteReport instant4 (uuid_text patientA) "0abc" example3).1 = Ok ().
Proof.
  destruct deleteReport_lenient_position as [Haccepted _].
  apply (Haccepted "0abc"). do 4 right. left.
Defined.


End IndexRuns.

(** * Further properties of src/backup.ts *)

Module BackupRuns.
Import Backup.

Section WithPrincipal.
Context `{Countable Principal}.
Variable fromText : string → option Principal.
Variable toText : Principal → string.


(** X10. [addPatient] of backup.ts, for an input that passes validation:
    when the assigned doctor is no principal text it answers the internal
    error and changes nothing; otherwise it succeeds, without looking the
    doctor up, and stores under the id the caller gave, when that is not
    the text of the current instant, the record with no reports and
    medicalHistory as received (absent when absent), in place of whatever
    was stored there; what is stored under keys other than that id and the
    current instant is unchanged. *)
Theorem addPatient_overwrites (now : Timestamp) (id ad : string)
    (name : option string) (age : option Z) (mh : option (list string))
    (ct : option string) (s : State Principal) :
  validatePatientInput (PatientDto.mk (Some id) name age mh ct (Some ad)) = true →
  (fromText ad = None →
   addPatient fromText toText now (Some id) name age mh ct (Some ad) s
   = (Fail InternalError, s))
  ∧ (∀ principal,
       fromText ad = Some principal →
       (addPatient fromText toText now (Some id) name age mh ct (Some ad) s).1
       = Ok ()
       ∧ (id ≠ timestamp_text now →
          patients
            (addPatient fromText toText now (Some id) name age mh ct (Some ad)
               s).2 !! inl id
          = Some (VObject
                    (Obj.mk _ None name None None (Some id) age mh ct
                       (Some principal) (Some []))))
       ∧ (∀ other, other ≠ inl id → other ≠ inl (timestamp_text now) →
            memory100
              (addPatient fromText toText now (Some id) name age mh ct (Some ad)
                 s).2 !! other
            = memory100 s !! other)).
Proof.
  intros Hv. unfold addPatient. rewrite Hv. simpl. split.
  - by intros ->.
  - intros principal ->. simpl. split; [reflexivity|]. split.
    + intros Hne. unfold patients. simpl.
      rewrite lookup_insert_ne by congruence. apply lookup_insert_eq.
    + intros other Hid Hnow. by rewrite !lookup_insert_ne.
Qed.

(** X11. [generateReports] of backup.ts asks the principal library for the
    principal of the text [admin] before it writes or answers: where that
    text is no principal, as under the library, the route answers the
    internal error in every state, and nothing is written. *)
Theorem backup_generateReports (now : Timestamp) (s : State Principal) :
  fromText "admin" = None →
  generateReports fromText toText now s = (Fail InternalError, s).
Proof.
  intros Hadmin. unfold generateReports. rewrite Hadmin.
  by destruct (foldl _ _ _).
Qed.



(** X14. [addDoctor] of backup.ts asks for no authorisation and overwrites:
    once it has stored a doctor with role FullAccess under a principal,
    whatever was stored there before, [deletePatient] requested with that
    doctor id succeeds for any patient id, after which nothing is stored
    under a patient id that is not the text of the instant of the
    deletion. *)
Theorem addDoctor_grants_delete (now now' : Timestamp)
    (doctorId patientId : string) (principal : Principal)
    (name department : option string) (s : State Principal) :
  doctorId ≠ "" → fromText doctorId = Some principal →
  truthy name = true → truthy department = true →
  ∃ s',
    addDoctor fromText toText now (Some doctorId) name (Some "FullAccess")
      department s = (Ok (), s')
    ∧ (deletePatient fromText toText now' patientId doctorId s').1 = Ok ()
    ∧ (patientId ≠ timestamp_text now' →
       patients (deletePatient fromText toText now' patientId doctorId s').2
         !! inl patientId = None).
Proof.
  intros Hne Hid Hn Hd. eexists.
  split; [by apply BackupFacts.addDoctor_valid|].
  set (newDoctor := Obj.mk _ (Some principal) name (Some "FullAccess")
                      department None None None None None None).
  set (s' := logAction toText now principal "Added new doctor" _).
  assert (Hstored : doctors s' !! inr principal = Some (VObject newDoctor)).
  { unfold s', doctors. simpl. rewrite lookup_insert_ne by discriminate.
    apply lookup_insert_eq. }
  rewrite (BackupFacts.deletePatient_allowed fromText toText now' patientId
             doctorId principal newDoctor principal s' Hid Hstored eq_refl
             eq_refl).
  simpl. split; [reflexivity|]. intros Hnow.
  rewrite lookup_insert_ne by congruence. apply lookup_delete_eq.
Qed.

(** X15. The permission gate over all routes of backup.ts: while no doctor
    with role FullAccess is stored, no single request removes what is
    stored under a patient id, and a patient record stored under an id
    that is not the text of an instant stays a record. *)
Theorem no_full_access_no_removal (s s' : State Principal) (key : string) :
  step fromText toText s s' →
  (∀ principal d,
     doctors s !! inr principal = Some (VObject d) →
     Obj.role d ≠ Some "FullAccess") →
  (is_Some (patients s !! inl key) → is_Some (patients s' !! inl key))
  ∧ (is_timestamp key = false →
     (∃ p, patients s !! inl key = Some (VObject p)) →
     ∃ p', patients s' !! inl key = Some (VObject p')).
Proof.
  intros Hstep Hgate.
  assert (Hlog : ∀ (now : Timestamp) line
                   (m : gmap (string + Principal) (Value Principal)),
            (is_Some (m !! inl key) →
             is_Some (<[inl (timestamp_text now) := VString line]> m !! inl key))
            ∧ (is_timestamp key = false →
               (∃ p, m !! inl key = Some (VObject p)) →
               ∃ p', <[inl (timestamp_text now) := VString line]> m !! inl key
                     = Some (VObject p'))).
  { intros now line m. split.
    - intros Hkey. rewrite lookup_insert. by case_decide.
    - intros Hk Hp. rewrite lookup_insert_ne; [assumption|].
      intros [= <-]. pose proof (timestamp_wf now). congruence. }
  assert (Hins : ∀ k v (m : gmap (string + Principal) (Value Principal)),
            (is_Some (m !! inl key) →
             is_Some (<[k := VObject v]> m !! inl key))
            ∧ ((∃ p, m !! inl key = Some (VObject p)) →
               ∃ p', <[k := VObject v]> m !! inl key = Some (VObject p'))).
  { intros k v m. split.
    - intros Hkey. rewrite lookup_insert. by case_decide.
    - intros Hp. rewrite lookup_insert. case_decide; eauto. }
  assert (Hboth : ∀ (now : Timestamp) line k v
                    (m : gmap (string + Principal) (Value Principal)),
            (is_Some (m !! inl key) →
             is_Some (<[inl (timestamp_text now) := VString line]>
                        (<[k := VObject v]> m) !! inl key))
            ∧ (is_timestamp key = false →
               (∃ p, m !! inl key = Some (VObject p)) →
               ∃ p', <[inl (timestamp_text now) := VString line]>
                       (<[k := VObject v]> m) !! inl key
                     = Some (VObject p'))).
  { intros now line k v m. split.
    - intros Hkey. by apply Hlog, Hins.
    - intros Hk Hp. by apply Hlog, Hins. }
  unfold patients in *. destruct Hstep.
  - unfold addDoctor.
    destruct (negb (truthy doctorId) || negb (truthy name) || negb (truthy role)
              || negb (truthy department)); simpl; [tauto|].
    destruct (doctorId ≫= fromText); simpl; [apply Hboth|tauto].
  - unfold addPatient. destruct (negb (validatePatientInput _)); simpl;
      [tauto|].
    destruct patientId as [id|]; [|tauto].
    destruct (ad ≫= fromText); simpl; [apply Hboth|tauto].
  - unfold deletePatient.
    destruct (fromText doctorId) as [principal|]; simpl; [|tauto].
    destruct (found (doctors s !! inr principal)) as [doctor|] eqn:Hd; simpl;
      [|tauto].
    rewrite bool_decide_eq_false_2; [simpl; tauto|].
    apply found_Some in Hd as [Hd _].
    destruct doctor as [d|line]; simpl; [|discriminate].
    by apply (Hgate principal).
  - unfold assignDoctor, patients, doctors.
    destruct (fromText doctorId) as [principal|]; simpl; [|tauto].
    destruct (found (memory100 s !! inl patientId)) as [[patient|line]|]; simpl;
      destruct (found (memory100 s !! inr principal)) as [doctor|]; simpl;
      try tauto.
    destruct (prop Obj.doctorId doctor); simpl; [apply Hboth|].
    split; [apply Hins|intros _; apply Hins].
  - unfold generateReports.
    destruct (foldl _ _ _); simpl; [|tauto].
    destruct (fromText "admin"); simpl; [apply Hlog|tauto].
Qed.

End WithPrincipal.

(** ** Under the principal library *)


Lemma addPatient_overwrites_witness :
  patients
    (addPatient Principal.fromText Principal.toText instant3 (Some "p1")
       (Some "P. One") (Some 41) None None (Some "2vxsx-fae") example3).2
    !! inl "p1"
  = Some (VObject
            (Obj.mk _ None (Some "P. One") None None (Some "p1") (Some 41)
               None None (Some [4%N]) (Some []))).
Proof.
  destruct (addPatient_overwrites Principal.fromText Principal.toText instant3
              "p1" "2vxsx-fae" (Some "P. One") (Some 41) None None example3
              eq_refl) as [_ Hstored].
  destruct (Hstored [4%N] eq_refl) as (_ & Hrecord & _).
  apply Hrecord. discriminate.
Defined.

Lemma backup_generateReports_witness :
  generateReports Principal.fromText Principal.toText instant3 example3
  = (Fail InternalError, example3).
Proof.
  apply (backup_generateReports Principal.fromText Principal.toText instant3
           example3).
  vm_compute. reflexivity.
Defined.



Lemma addDoctor_grants_delete_witness :
  ∃ s',
    addDoctor Principal.fromText Principal.toText instant3
      (Some "rrkah-fqaaa-aaaaa-aaaaq-cai") (Some "Mallory")
      (Some "FullAccess") (Some "None") example3 = (Ok (), s')
    ∧ (deletePatient Principal.fromText Principal.toText instant4 "p1"
         "rrkah-fqaaa-aaaaa-aaaaq-cai" s').1 = Ok ()
    ∧ ("p1" ≠ timestamp_text instant4 →
       patients
         (deletePatient Principal.fromText Principal.toText instant4 "p1"
            "rrkah-fqaaa-aaaaa-aaaaq-cai" s').2 !! inl "p1" = None).
Proof.
  apply (addDoctor_grants_delete Principal.fromText Principal.toText instant3
           instant4 "rrkah-fqaaa-aaaaa-aaaaq-cai" "p1"
           [0; 0; 0; 0; 0; 0; 0; 1; 1; 1]%N (Some "Mallory") (Some "None")
           example3);
    try reflexivity.
  discriminate.
Defined.

Lemma no_full_access_no_removal_witness :
  is_Some
    (patients
       (deletePatient Principal.fromText Principal.toText instant3 "p1"
          "2vxsx-fae"
          (addPatient Principal.fromText Principal.toText instant2 (Some "p1")
             (Some "P1") (Some 40) None None (Some "2vxsx-fae")
             (addDoctor Principal.fromText Principal.toText instant1
                (Some "2vxsx-fae") (Some "Dr. B") (Some "ReadOnly")
                (Some "Cardio") (init (Principal := Principal.t))).2).2).2
       !! inl "p1").
Proof.
  destruct (no_full_access_no_removal Principal.fromText Principal.toText
              (addPatient Principal.fromText Principal.toText instant2
                 (Some "p1") (Some "P1") (Some 40) None None (Some "2vxsx-fae")
                 (addDoctor Principal.fromText Principal.toText instant1
                    (Some "2vxsx-fae") (Some "Dr. B") (Some "ReadOnly")
                    (Some "Cardio") (init (Principal := Principal.t))).2).2
              _ "p1" (step_deletePatient _ _ _ instant3 "p1" "2vxsx-fae"))
    as [Hkept _].
  - intros principal d. unfold doctors.
    rewrite (BackupFacts.addDoctor_valid Principal.fromText Principal.toText
               instant1 "2vxsx-fae" [4%N] (Some "Dr. B") (Some "ReadOnly")
               (Some "Cardio") init)
      by (reflexivity || discriminate).
    rewrite (BackupFacts.addPatient_valid Principal.fromText Principal.toText
               instant2 "p1" "2vxsx-fae" [4%N] (Some "P1") (Some 40) None None)
      by reflexivity.
    unfold logAction, patients_insert, doctors_insert, auditLogs_insert, init.
    cbn [memory100 snd].
    rewrite lookup_insert_ne by discriminate.
    rewrite lookup_insert_ne by discriminate.
    rewrite lookup_insert_ne by discriminate.
    rewrite lookup_insert. case_decide; [|by rewrite lookup_empty].
    intros [= <-]. discriminate.
  - apply Hkept. vm_compute. eauto.
Defined.
End BackupRuns.
